(** * Therapy chat relay: a shallow embedding of [main.py]

    The development follows the layout of the Python module:
    the master prompt and [build_messages], the billing ledger
    [BILLING_RECORDS], the error normalisation shared by the three
    provider-facing handlers, and the [websocket_chat] loop.

    Modelling conventions.
    - A Python [str] is a Rocq [string]; [str.lower] acts on the ASCII
      letters.
    - A value produced by [json.loads] or handed to [json.dumps] is a
      [json] tree; a JSON object is a [gmap string json] (a Python dict).
      The text on the wire is not modelled: an inbound frame is given by
      what [json.loads] makes of it, an outbound frame by the dict that is
      passed to [json.dumps].
    - [time.time()] readings are rationals and float arithmetic is taken
      exact; [round(x, 2)] rounds to the nearest hundredth, ties to even.
    - Effects are explicit: the handler threads a [World] holding the
      module-level list [BILLING_RECORDS] and the chronological trace of
      provider requests, websocket sends and ledger appends.  Console
      output is not modelled.
    - A call of [websocket.send_text] either lets the frame through or
      raises.  The handler is given twice.  [run_turn], [iteration] and
      [websocket_loop] are the handler on a connection on which every
      send goes through: they serve for what does not depend on the
      connection.  [run_turn_on], [iteration_on] and [websocket_loop_on]
      thread a [Link], the outcomes of the sends to come, and follow a
      raising send through the inner [except] and out of the loop.  The
      two agree on a link whose sends go through
      ([iteration_on_sends_ok], [websocket_loop_on_open]). *)

From Stdlib Require Import Ascii QArith Qround Lqa.
From stdpp Require Import gmap strings list.

Set Warnings "-register-all".
Local Open Scope string_scope.
Local Open Scope list_scope.

(** ** Python built-ins used by the module *)

(** [c.lower()] on one ASCII character. *)
Definition ascii_lower (c : ascii) : ascii :=
  let n := nat_of_ascii c in
  if (65 <=? n)%nat && (n <=? 90)%nat then ascii_of_nat (n + 32) else c.

(** [s.lower()] *)
Fixpoint lower (s : string) : string :=
  match s with
  | EmptyString => EmptyString
  | String c s' => String (ascii_lower c) (lower s')
  end.

(** [needle in hay] on strings. *)
Fixpoint py_in (needle hay : string) : bool :=
  String.prefix needle hay ||
  match hay with
  | EmptyString => false
  | String _ hay' => py_in needle hay'
  end.

(** Truth value of a [str | None]: [None] and the empty string are falsy. *)
Definition truthy (o : option string) : bool :=
  match o with
  | Some (String _ _) => true
  | _ => false
  end.

(** Nearest integer, ties to the even neighbour. *)
Definition round_half_even (x : Q) : Z :=
  let f := Qfloor x in
  match (x - inject_Z f ?= 1 # 2)%Q with
  | Lt => f
  | Gt => (f + 1)%Z
  | Eq => if Z.even f then f else (f + 1)%Z
  end.

(** [round(x, ndigits)] *)
Definition py_round (x : Q) (ndigits : nat) : Q :=
  let scale := (10 ^ Z.of_nat ndigits)%Z in
  round_half_even (x * inject_Z scale) # Z.to_pos scale.

(** [time.gmtime()]: the calendar fields of the current UTC time, the year
    having four digits. *)
Record struct_time := {
  tm_year : nat; tm_mon : nat; tm_mday : nat;
  tm_hour : nat; tm_min : nat; tm_sec : nat
}.

Definition digit (n : nat) : ascii := ascii_of_nat (48 + n mod 10).

Definition zero_pad2 (n : nat) : string :=
  String (digit (n / 10)) (String (digit n) "").

Definition zero_pad4 (n : nat) : string :=
  String (digit (n / 1000)) (String (digit (n / 100)) (zero_pad2 n)).

(** [time.strftime("%Y-%m-%d %H:%M:%S", t)] *)
Definition strftime (t : struct_time) : string :=
  zero_pad4 (tm_year t) +:+ "-" +:+ zero_pad2 (tm_mon t) +:+ "-" +:+
  zero_pad2 (tm_mday t) +:+ " " +:+ zero_pad2 (tm_hour t) +:+ ":" +:+
  zero_pad2 (tm_min t) +:+ ":" +:+ zero_pad2 (tm_sec t).

(** ** JSON values *)

Inductive json : Type :=
| JNull
| JBool (b : bool)
| JInt (n : Z)
| JFloat (q : Q)
| JStr (s : string)
| JArr (l : list json)
| JObj (m : gmap string json).

(** [v == s] for a string literal [s]: only a [str] equals a [str]. *)
Definition eq_str (v : option json) (s : string) : bool :=
  match v with
  | Some (JStr t) => String.eqb t s
  | _ => false
  end.

(** ** Master prompt and message building *)

Definition MASTER_THERAPY_PROMPT : string :=
"
You are an empathetic, licensed-therapist-style AI assistant.
You respond with warmth, clarity, and psychological insight.
[TODO: real master prompt text will be pasted here later.]
".

(** One entry of the [messages] array: [{"role": ..., "content": ...}]. *)
Record Message := { role : string; content : json }.

Definition build_messages (patient_text : json)
    (therapist_whisper : option string) : list Message :=
  let messages := [ {| role := "system"; content := JStr MASTER_THERAPY_PROMPT |} ] in
  let messages :=
    match therapist_whisper with
    | Some (String _ _ as whisper) =>
        messages ++ [ {| role := "system"; content := JStr whisper |} ]
    | _ => messages
    end in
  messages ++ [ {| role := "user"; content := patient_text |} ].

(** ** Provider errors

    Every handler catches [Exception as e] and works on [str(e)].  A call
    into the provider either returns or raises; [Raise] carries [str(e)]. *)

Inductive result (A : Type) : Type :=
| Return (a : A)
| Raise (e : string).
Arguments Return {A} a.
Arguments Raise {A} e.

(** ["api_key" in error_message.lower()] *)
Definition mentions_api_key (error_message : string) : bool :=
  py_in "api_key" (lower error_message).

(** ** One-shot conversion endpoints *)

Module fastapi.
Inductive Content :=
| dumps (v : json)                (* [json.dumps(v)] *)
| bytes (b : list Byte.byte).

(** [Response(content=..., status_code=..., media_type=..., headers=...)] *)
Record Response := {
  content : Content;
  status_code : nat;
  media_type : string;
  headers : list (string * string)
}.

(** What a route handler hands back: a dict, or an explicit response. *)
Inductive Returned :=
| Dict (v : json)
| Resp (r : Response).
End fastapi.

(** [/api/stt]: [attempt] is the outcome of the [try] block, the
    transcription or the exception raised on the way to it. *)
Definition speech_to_text (attempt : result string) : fastapi.Returned :=
  match attempt with
  | Return transcription =>
      fastapi.Dict (JObj {[ "text" := JStr transcription ]})
  | Raise e =>
      let error_message := e in
      let error_message :=
        if mentions_api_key error_message
        then "OpenAI API key not configured"
        else error_message in
      fastapi.Resp {|
        fastapi.content := fastapi.dumps (JObj {[ "error" := JStr error_message ]});
        fastapi.status_code := 500;
        fastapi.media_type := "application/json";
        fastapi.headers := [] |}
  end.

(** [/api/tts]: [attempt] is the outcome of the [try] block, the audio
    bytes of the provider's response or the exception raised. *)
Definition text_to_speech (attempt : result (list Byte.byte)) : fastapi.Returned :=
  match attempt with
  | Return audio_bytes =>
      fastapi.Resp {|
        fastapi.content := fastapi.bytes audio_bytes;
        fastapi.status_code := 200;
        fastapi.media_type := "audio/mpeg";
        fastapi.headers := [("Content-Disposition", "inline; filename=response.mp3")] |}
  | Raise e =>
      let error_message := e in
      let error_message :=
        if mentions_api_key error_message
        then "OpenAI API key not configured"
        else error_message in
      fastapi.Resp {|
        fastapi.content := fastapi.dumps (JObj {[ "error" := JStr error_message ]});
        fastapi.status_code := 500;
        fastapi.media_type := "application/json";
        fastapi.headers := [] |}
  end.

(** ** Streaming completions *)

Module openai.
Record ChoiceDelta := { content : option string }.
Record Choice := { delta : ChoiceDelta }.
Record ChatCompletionChunk := { choices : list Choice }.

(** What the completion client does during one turn.
    - [no_client e]: [get_openai_client()] raises, no request is made;
    - [stream cs fin]: [chat.completions.create] is called, the chunks
      [cs] are delivered by [async for], which then ends normally
      ([Return]) or by an exception ([Raise]; with [cs = []] this is
      also the case of [create] itself raising). *)
Inductive Completion :=
| no_client (e : string)
| stream (cs : list ChatCompletionChunk) (fin : result unit).
End openai.

(** ** Billing ledger and the handler's world *)

(** One entry of [BILLING_RECORDS]. *)
Record BillingRecord := {
  session_id : string;
  duration_seconds : Q;
  model : string;
  timestamp : string
}.

Inductive Effect :=
| Requested (model : string) (messages : list Message)
| Sent (frame : json)
| Appended (r : BillingRecord).

Record World := {
  BILLING_RECORDS : list BillingRecord;
  trace : list Effect
}.

Definition log (w : World) (e : Effect) : World :=
  {| BILLING_RECORDS := BILLING_RECORDS w; trace := trace w ++ [e] |}.

(** [client.chat.completions.create(model=..., messages=..., stream=True)] *)
Definition create (w : World) (model : string) (messages : list Message) : World :=
  log w (Requested model messages).

(** The effect of a [websocket.send_text(json.dumps(frame))] that goes
    through. *)
Definition send_text (w : World) (frame : json) : World :=
  log w (Sent frame).

(** [BILLING_RECORDS.append(r)] *)
Definition append (w : World) (r : BillingRecord) : World :=
  log {| BILLING_RECORDS := BILLING_RECORDS w ++ [r]; trace := trace w |} (Appended r).

(** The dict returned by [/billing-debug]. *)
Record DebugDump := {
  note : string;
  total_sessions : nat;
  records : list BillingRecord
}.

(** [/billing-debug]: the count and the records, read and left as they are. *)
Definition billing_debug (w : World) : World * DebugDump :=
  (w, {| note := "Debug endpoint - would be secured in production";
         total_sessions := length (BILLING_RECORDS w);
         records := BILLING_RECORDS w |}).

(** The frames sent so far, oldest first. *)
Definition sent (w : World) : list json :=
  omap (fun e => match e with Sent f => Some f | _ => None end) (trace w).

(** The provider requests made so far, oldest first. *)
Definition requests (w : World) : list (string * list Message) :=
  omap (fun e => match e with Requested m ms => Some (m, ms) | _ => None end) (trace w).

(** ** The websocket handler *)

(** Fixed at [websocket.accept()]: a fresh [uuid4] and the model name. *)
Record Session := {
  sid : string;
  model_name : string
}.

Definition accept (uuid4 : string) : Session :=
  {| sid := uuid4; model_name := "gpt-4o-mini" |}.

(** What the environment gives to one turn: the two readings of
    [time.time()], the reading of [time.gmtime()] and the behaviour of the
    completion client. *)
Record TurnEnv := {
  start_time : Q;
  completion : openai.Completion;
  end_time : Q;
  gmtime : struct_time
}.

(** Body of [async for chunk in stream], every send going through. *)
Definition relay_chunk (w : World) (chunk : openai.ChatCompletionChunk) : World :=
  match openai.choices chunk with
  | [] => w
  | choice :: _ =>
      let delta := openai.delta choice in
      match openai.content delta with
      | Some (String _ _ as text) =>
          send_text w (JObj {[ "type" := JStr "chunk"; "text" := JStr text ]})
      | _ => w
      end
  end.

(** The inner [try] block of a turn, up to the exception it may end with,
    every send going through. *)
Definition try_turn (s : Session) (messages : list Message) (env : TurnEnv)
    (w : World) : World * result unit :=
  match completion env with
  | openai.no_client e => (w, Raise e)
  | openai.stream cs fin =>
      let w := create w (model_name s) messages in
      let w := fold_left relay_chunk cs w in
      match fin with
      | Raise e => (w, Raise e)
      | Return _ =>
          let duration_seconds := (end_time env - start_time env)%Q in
          let w := append w {|
            session_id := sid s;
            duration_seconds := py_round duration_seconds 2;
            model := model_name s;
            timestamp := strftime (gmtime env) |} in
          (send_text w (JObj {[ "type" := JStr "done" ]}), Return tt)
      end
  end.

(** The branch taken on [message.get("type") == "user_message"], every
    send going through. *)
Definition run_turn (s : Session) (patient_text : json) (env : TurnEnv)
    (w : World) : World :=
  let messages := build_messages patient_text None in
  match try_turn s messages env w with
  | (w, Return _) => w
  | (w, Raise e) =>
      let error_message := e in
      let error_message :=
        if mentions_api_key error_message
        then "OpenAI API key not configured. Please set OPENAI_API_KEY in Replit Secrets."
        else error_message in
      send_text w (JObj {[ "type" := JStr "error"; "text" := JStr error_message ]})
  end.

(** What [websocket.receive_text()] followed by [json.loads] yields. *)
Inductive Received :=
| WebSocketDisconnect             (* [receive_text] raises *)
| JSONDecodeError                 (* [json.loads(data)] raises *)
| Loaded (message : json).

(** Where the handler is after one pass through the body of [while True]:
    back at [receive_text] ([Idle]) or out of the loop through one of the
    two outer [except] clauses ([Closed]). *)
Inductive Status := Idle | Closed.

(** One pass through the body of [while True], every send going through. *)
Definition iteration (s : Session) (r : Received) (env : TurnEnv)
    (w : World) : World * Status :=
  match r with
  | WebSocketDisconnect => (w, Closed)
  | JSONDecodeError => (w, Closed)
  | Loaded (JObj message) =>
      if eq_str (message !! "type") "user_message" then
        let patient_text := default (JStr "") (message !! "text") in
        (run_turn s patient_text env w, Idle)
      else (w, Idle)
  | Loaded _ => (w, Closed)       (* no [.get] on a non-dict: AttributeError *)
  end.

(** The [while True] loop over the frames that arrive, each with the
    environment of the turn it may start.  When the input is used up the
    handler is waiting at [receive_text]. *)
Fixpoint websocket_loop (s : Session) (inputs : list (Received * TurnEnv))
    (w : World) : World * Status :=
  match inputs with
  | [] => (w, Idle)
  | (r, env) :: inputs' =>
      match iteration s r env w with
      | (w', Idle) => websocket_loop s inputs' w'
      | (w', Closed) => (w', Closed)
      end
  end.

(** [websocket_chat]: accept, then loop. *)
Definition websocket_chat (uuid4 : string) (inputs : list (Received * TurnEnv))
    (w : World) : World * Status :=
  websocket_loop (accept uuid4) inputs w.

(** ** The handler on a connection that may drop *)

(** What the connection does to the calls of [websocket.send_text] to
    come, in order: let the frame through ([Return]) or raise ([Raise],
    with the text of the exception).  Past the end of the list every send
    goes through. *)
Definition Link := list (result unit).

(** [await websocket.send_text(json.dumps(frame))] *)
Definition websocket_send_text (frame : json) (w : World) (link : Link)
    : World * Link * result unit :=
  match link with
  | Raise e :: link' => (w, link', Raise e)
  | Return _ :: link' => (send_text w frame, link', Return tt)
  | [] => (send_text w frame, [], Return tt)
  end.

(** Body of [async for chunk in stream]. *)
Definition relay_chunk_on (chunk : openai.ChatCompletionChunk) (w : World)
    (link : Link) : World * Link * result unit :=
  match openai.choices chunk with
  | [] => (w, link, Return tt)
  | choice :: _ =>
      let delta := openai.delta choice in
      match openai.content delta with
      | Some (String _ _ as text) =>
          websocket_send_text
            (JObj {[ "type" := JStr "chunk"; "text" := JStr text ]}) w link
      | _ => (w, link, Return tt)
      end
  end.

(** [async for chunk in stream] over the chunks the provider delivers: the
    iteration is abandoned at the first send that raises. *)
Fixpoint async_for (cs : list openai.ChatCompletionChunk) (w : World)
    (link : Link) : World * Link * result unit :=
  match cs with
  | [] => (w, link, Return tt)
  | chunk :: cs' =>
      match relay_chunk_on chunk w link with
      | (w, link, Return _) => async_for cs' w link
      | (w, link, Raise e) => (w, link, Raise e)
      end
  end.

(** The inner [try] block of a turn, up to the exception it may end with:
    one raised by the provider or one raised by a send. *)
Definition try_turn_on (s : Session) (messages : list Message) (env : TurnEnv)
    (w : World) (link : Link) : World * Link * result unit :=
  match completion env with
  | openai.no_client e => (w, link, Raise e)
  | openai.stream cs fin =>
      let w := create w (model_name s) messages in
      match async_for cs w link with
      | (w, link, Raise e) => (w, link, Raise e)
      | (w, link, Return _) =>
          match fin with
          | Raise e => (w, link, Raise e)
          | Return _ =>
              let duration_seconds := (end_time env - start_time env)%Q in
              let w := append w {|
                session_id := sid s;
                duration_seconds := py_round duration_seconds 2;
                model := model_name s;
                timestamp := strftime (gmtime env) |} in
              websocket_send_text (JObj {[ "type" := JStr "done" ]}) w link
          end
      end
  end.

(** The branch taken on [message.get("type") == "user_message"]: the
    [try] block and its [except Exception] handler.  The result is
    [Raise] when the send of the handler itself raises, which takes the
    exception out of the inner [try] statement. *)
Definition run_turn_on (s : Session) (patient_text : json) (env : TurnEnv)
    (w : World) (link : Link) : World * Link * result unit :=
  let messages := build_messages patient_text None in
  match try_turn_on s messages env w link with
  | (w, link, Return _) => (w, link, Return tt)
  | (w, link, Raise e) =>
      let error_message := e in
      let error_message :=
        if mentions_api_key error_message
        then "OpenAI API key not configured. Please set OPENAI_API_KEY in Replit Secrets."
        else error_message in
      websocket_send_text
        (JObj {[ "type" := JStr "error"; "text" := JStr error_message ]}) w link
  end.

(** One pass through the body of [while True]: an exception that leaves
    the turn is caught by one of the two outer [except] clauses, outside
    the loop. *)
Definition iteration_on (s : Session) (r : Received) (env : TurnEnv)
    (w : World) (link : Link) : World * Link * Status :=
  match r with
  | WebSocketDisconnect => (w, link, Closed)
  | JSONDecodeError => (w, link, Closed)
  | Loaded (JObj message) =>
      if eq_str (message !! "type") "user_message" then
        let patient_text := default (JStr "") (message !! "text") in
        match run_turn_on s patient_text env w link with
        | (w, link, Return _) => (w, link, Idle)
        | (w, link, Raise _) => (w, link, Closed)
        end
      else (w, link, Idle)
  | Loaded _ => (w, link, Closed)
  end.

(** The [while True] loop. *)
Fixpoint websocket_loop_on (s : Session) (inputs : list (Received * TurnEnv))
    (w : World) (link : Link) : World * Link * Status :=
  match inputs with
  | [] => (w, link, Idle)
  | (r, env) :: inputs' =>
      match iteration_on s r env w link with
      | (w', link', Idle) => websocket_loop_on s inputs' w' link'
      | (w', link', Closed) => (w', link', Closed)
      end
  end.

(** [websocket_chat]: accept, then loop. *)
Definition websocket_chat_on (uuid4 : string) (inputs : list (Received * TurnEnv))
    (w : World) (link : Link) : World * Link * Status :=
  websocket_loop_on (accept uuid4) inputs w link.

(** ** Vocabulary for the statements *)

(** The three dicts the handler serialises. *)
Definition chunk_frame (text : string) : json :=
  JObj {[ "type" := JStr "chunk"; "text" := JStr text ]}.
Definition done_frame : json :=
  JObj {[ "type" := JStr "done" ]}.
Definition error_frame (text : string) : json :=
  JObj {[ "type" := JStr "error"; "text" := JStr text ]}.

(** The ["type"] entry of a frame. *)
Definition frame_type (f : json) : option json :=
  match f with
  | JObj m => m !! "type"
  | _ => None
  end.

(** The ["text"] entry of a frame. *)
Definition frame_text (f : json) : option json :=
  match f with
  | JObj m => m !! "text"
  | _ => None
  end.

Definition is_chunk (f : json) : bool := eq_str (frame_type f) "chunk".
Definition is_done (f : json) : bool := eq_str (frame_type f) "done".
Definition is_error (f : json) : bool := eq_str (frame_type f) "error".
Definition is_terminal (f : json) : bool := is_done f || is_error f.

(** Ledger writes among the effects of a trace. *)
Definition is_append (e : Effect) : bool :=
  match e with
  | Appended _ => true
  | _ => false
  end.

(** The text a provider chunk carries: the content of the delta of its
    first choice, when there is one and it is not empty. *)
Definition delta_text (chunk : openai.ChatCompletionChunk) : option string :=
  match openai.choices chunk with
  | [] => None
  | choice :: _ =>
      match openai.content (openai.delta choice) with
      | Some "" => None
      | o => o
      end
  end.

(** The error a completion ends with, if it fails. *)
Definition failure (c : openai.Completion) : option string :=
  match c with
  | openai.no_client e => Some e
  | openai.stream _ (Raise e) => Some e
  | openai.stream _ (Return _) => None
  end.

(** The chunks a completion delivers before it ends. *)
Definition delivered (c : openai.Completion) : list openai.ChatCompletionChunk :=
  match c with
  | openai.no_client _ => []
  | openai.stream cs _ => cs
  end.

(** The message of the [error] frame for the exception text [e]. *)
Definition websocket_error_text (e : string) : string :=
  if mentions_api_key e
  then "OpenAI API key not configured. Please set OPENAI_API_KEY in Replit Secrets."
  else e.

(** The [500] response of the conversion endpoints. *)
Definition error_response (error_message : string) : fastapi.Returned :=
  fastapi.Resp {|
    fastapi.content := fastapi.dumps (JObj {[ "error" := JStr error_message ]});
    fastapi.status_code := 500;
    fastapi.media_type := "application/json";
    fastapi.headers := [] |}.

(** A dict that the handler takes for a turn request. *)
Definition is_user_message (message : gmap string json) : bool :=
  eq_str (message !! "type") "user_message".

(** What arrived is a dict, whatever its entries. *)
Definition is_dict (r : Received) : bool :=
  match r with
  | Loaded (JObj _) => true
  | _ => false
  end.

(** What arrived starts a turn. *)
Definition starts_turn (r : Received) : bool :=
  match r with
  | Loaded (JObj message) => is_user_message message
  | _ => false
  end.

(** The next [n] sends go through. *)
Definition sends_ok (n : nat) (link : Link) : bool :=
  forallb (fun o => match o with Return _ => true | Raise _ => false end)
          (take n link).

(** The texts of the chunk frames of a turn whose sends go through. *)
Definition chunk_texts (env : TurnEnv) : list string :=
  omap delta_text (delivered (completion env)).

(** The record a completed turn of session [s] writes. *)
Definition billing_record (s : Session) (env : TurnEnv) : BillingRecord :=
  {| session_id := sid s;
     duration_seconds := py_round (end_time env - start_time env) 2;
     model := model_name s;
     timestamp := strftime (gmtime env) |}.

(** A turn environment from its four readings. *)
Definition turn_env (t0 : Q) (c : openai.Completion) (t1 : Q) (g : struct_time) : TurnEnv :=
  {| start_time := t0; completion := c; end_time := t1; gmtime := g |}.

(** ** Sample inputs *)

Definition empty_world : World := {| BILLING_RECORDS := []; trace := [] |}.

(** The dict of a client frame [{"type": "user_message", "text": text}]. *)
Definition user_message (text : string) : gmap string json :=
  {[ "type" := JStr "user_message"; "text" := JStr text ]}.

(** A provider chunk with a single choice whose delta carries [content]. *)
Definition chunk_of (content : option string) : openai.ChatCompletionChunk :=
  {| openai.choices := [ {| openai.delta := {| openai.content := content |} |} ] |}.

(** A provider chunk without choices. *)
Definition bare_chunk : openai.ChatCompletionChunk :=
  {| openai.choices := [] |}.

Definition sample_gmtime : struct_time :=
  {| tm_year := 2025; tm_mon := 3; tm_mday := 7;
     tm_hour := 9; tm_min := 5; tm_sec := 59 |}.

(** A turn that streams ["Hel"], ["lo, "], ["world"] and ends normally. *)
Definition hello_env : TurnEnv :=
  turn_env 10 (openai.stream [chunk_of (Some "Hel"); chunk_of (Some "lo, ");
                              chunk_of (Some "world")] (Return tt))
           (12 + (1 # 3)) sample_gmtime.

(** A turn in which the provider fails after one chunk. *)
Definition failing_env : TurnEnv :=
  turn_env 10 (openai.stream [chunk_of (Some "Hel")] (Raise "Connection error."))
           11 sample_gmtime.


(** A turn whose only chunk reads ["2025"]. *)
Definition decoy_env : TurnEnv :=
  turn_env 10 (openai.stream [chunk_of (Some "2025")] (Return tt)) 11 sample_gmtime.

(** A well-formed frame of another type. *)
Definition ping : gmap string json := {[ "type" := JStr "ping" ]}.

(** A [user_message] frame without the ["text"] entry. *)
Definition textless : gmap string json := {[ "type" := JStr "user_message" ]}.

(** ** The client singleton *)

(** An [AsyncOpenAI] instance, known by its identity. *)
Definition Client := nat.

(** The module-level [_openai_client], with the number of times
    [AsyncOpenAI()] has been called so far. *)
Record ClientCache := {
  _openai_client : option Client;
  constructions : nat
}.

(** [get_openai_client()]; [AsyncOpenAI] is what the constructor does if it
    is called now. *)
Definition get_openai_client (AsyncOpenAI : result Client) (st : ClientCache)
    : ClientCache * result Client :=
  match _openai_client st with
  | None =>
      match AsyncOpenAI with
      | Return c =>
          ({| _openai_client := Some c; constructions := S (constructions st) |},
           Return c)
      | Raise e =>
          ({| _openai_client := None; constructions := S (constructions st) |},
           Raise e)
      end
  | Some c => (st, Return c)
  end.

(** Successive calls of [get_openai_client()], one constructor behaviour
    for each. *)
Fixpoint get_openai_client_calls (outcomes : list (result Client)) (st : ClientCache)
    : ClientCache * list (result Client) :=
  match outcomes with
  | [] => (st, [])
  | AsyncOpenAI :: outcomes' =>
      let (st, r) := get_openai_client AsyncOpenAI st in
      let (st, rs) := get_openai_client_calls outcomes' st in
      (st, r :: rs)
  end.

(** ** The conversion routes in full *)

(** The uploaded audio: its optional file name and what [audio.read()]
    does. *)
Record UploadFile := {
  filename : option string;
  read : result (list Byte.byte)
}.

(** [client.audio.transcriptions.create(model=..., file=..., response_format=...)] *)
Record TranscriptionRequest := {
  transcription_model : string;
  file_name : string;
  file_content : list Byte.byte;
  transcription_format : string
}.

(** The [try] block of [/api/stt]: the provider requests made and the
    outcome handed to the rest of the handler. *)
Definition stt_try (client : result Client) (audio : UploadFile)
    (transcribe : TranscriptionRequest -> result string)
    : list TranscriptionRequest * result string :=
  match client with
  | Raise e => ([], Raise e)
  | Return _ =>
      match read audio with
      | Raise e => ([], Raise e)
      | Return audio_content =>
          let name :=
            match filename audio with
            | Some (String _ _ as name) => name
            | _ => "audio.webm"
            end in
          let request := {| transcription_model := "whisper-1";
                            file_name := name;
                            file_content := audio_content;
                            transcription_format := "text" |} in
          ([request], transcribe request)
      end
  end.

(** [/api/stt] *)
Definition api_stt (AsyncOpenAI : result Client) (audio : UploadFile)
    (transcribe : TranscriptionRequest -> result string) (st : ClientCache)
    : ClientCache * list TranscriptionRequest * fastapi.Returned :=
  let (st, client) := get_openai_client AsyncOpenAI st in
  let (requests, attempt) := stt_try client audio transcribe in
  (st, requests, speech_to_text attempt).

(** [client.audio.speech.create(model=..., voice=..., input=..., response_format=...)] *)
Record SpeechRequest := {
  speech_model : string;
  voice : string;
  input : string;
  speech_format : string
}.

(** The [try] block of [/api/tts] for the body [{"text": text}]. *)
Definition tts_try (client : result Client) (text : string)
    (synthesize : SpeechRequest -> result (list Byte.byte))
    : list SpeechRequest * result (list Byte.byte) :=
  match client with
  | Raise e => ([], Raise e)
  | Return _ =>
      let request := {| speech_model := "tts-1"; voice := "nova";
                        input := text; speech_format := "mp3" |} in
      ([request], synthesize request)
  end.

(** [/api/tts] *)
Definition api_tts (AsyncOpenAI : result Client) (text : string)
    (synthesize : SpeechRequest -> result (list Byte.byte)) (st : ClientCache)
    : ClientCache * list SpeechRequest * fastapi.Returned :=
  let (st, client) := get_openai_client AsyncOpenAI st in
  let (requests, attempt) := tts_try client text synthesize in
  (st, requests, text_to_speech attempt).

(** The message of the conversion endpoints for the exception text [e]. *)
Definition http_error_text (e : string) : string :=
  if mentions_api_key e then "OpenAI API key not configured" else e.

(** The status code of what a route hands back; a dict is sent with [200]. *)
Definition status_of (r : fastapi.Returned) : nat :=
  match r with
  | fastapi.Dict _ => 200
  | fastapi.Resp resp => fastapi.status_code resp
  end.

(** ** Vocabulary for whole sessions *)

(** The turns the loop runs on [inputs]: the patient text and the
    environment of every frame that starts one, up to the first input
    that takes the handler out of the loop. *)
Fixpoint turns (inputs : list (Received * TurnEnv)) : list (json * TurnEnv) :=
  match inputs with
  | (Loaded (JObj message), env) :: rest =>
      (if is_user_message message
       then [(default (JStr "") (message !! "text"), env)]
       else []) ++ turns rest
  | _ => []
  end.

(** Some input takes the handler out of the loop. *)
Definition closes (inputs : list (Received * TurnEnv)) : bool :=
  existsb (fun i => negb (is_dict i.1)) inputs.

(** The provider does not fail the turn. *)
Definition completes (t : json * TurnEnv) : bool :=
  match failure (completion t.2) with
  | None => true
  | Some _ => false
  end.

(** The frames of one turn. *)
Definition turn_frames (t : json * TurnEnv) : list json :=
  map chunk_frame (omap delta_text (delivered (completion t.2))) ++
  [match failure (completion t.2) with
   | None => done_frame
   | Some e => error_frame (websocket_error_text e)
   end].

(** The provider requests of one turn. *)
Definition turn_requests (s : Session) (t : json * TurnEnv)
    : list (string * list Message) :=
  match completion t.2 with
  | openai.no_client _ => []
  | openai.stream _ _ => [(model_name s, build_messages t.1 None)]
  end.

(** A dict that starts no turn. *)
Definition is_noop (i : Received * TurnEnv) : bool :=
  is_dict i.1 && negb (starts_turn i.1).


(** A link that lets [n] sends through and then raises, twice. *)
Definition drops_after (n : nat) : Link :=
  repeat (Return tt) n ++ [Raise "connection closed"; Raise "connection closed"].

(** ** The trace of one turn *)

Section Turn.
Variable s : Session.

Lemma relay_chunk_world w chunk :
  relay_chunk w chunk =
    {| BILLING_RECORDS := BILLING_RECORDS w;
       trace := trace w ++
         match delta_text chunk with
         | Some text => [Sent (chunk_frame text)]
         | None => []
         end |}.
Proof.
  unfold relay_chunk, delta_text.
  destruct (openai.choices chunk) as [|choice rest].
  - destruct w; simpl. by rewrite app_nil_r.
  - destruct (openai.content (openai.delta choice)) as [[|c text]|]; simpl.
    + destruct w; simpl. by rewrite app_nil_r.
    + reflexivity.
    + destruct w; simpl. by rewrite app_nil_r.
Qed.

Lemma relay_chunks_world cs : forall w,
  fold_left relay_chunk cs w =
    {| BILLING_RECORDS := BILLING_RECORDS w;
       trace := trace w ++ map Sent (map chunk_frame (omap delta_text cs)) |}.
Proof.
  induction cs as [|chunk cs IH]; intros w; simpl.
  - destruct w; simpl. by rewrite app_nil_r.
  - rewrite IH, relay_chunk_world. simpl. f_equal.
    rewrite <- app_assoc. f_equal.
    by destruct (delta_text chunk).
Qed.

(** The world after a turn whose stream ends normally. *)
Lemma run_turn_completed patient_text env cs u w :
  completion env = openai.stream cs (Return u) ->
  run_turn s patient_text env w =
    {| BILLING_RECORDS := BILLING_RECORDS w ++ [billing_record s env];
       trace := trace w ++
         Requested (model_name s) (build_messages patient_text None) ::
         map Sent (map chunk_frame (omap delta_text cs)) ++
         [Appended (billing_record s env); Sent done_frame] |}.
Proof.
  intros Hc. unfold run_turn, try_turn. rewrite Hc.
  rewrite relay_chunks_world. unfold send_text, append, create, log; simpl.
  f_equal. by rewrite <- !app_assoc.
Qed.

(** The world after a turn that the provider fails. *)
Lemma run_turn_failed patient_text env e w :
  failure (completion env) = Some e ->
  run_turn s patient_text env w =
    {| BILLING_RECORDS := BILLING_RECORDS w;
       trace := trace w ++
         match completion env with
         | openai.no_client _ => []
         | openai.stream _ _ =>
             [Requested (model_name s) (build_messages patient_text None)]
         end ++
         map Sent (map chunk_frame (omap delta_text (delivered (completion env)))) ++
         [Sent (error_frame (websocket_error_text e))] |}.
Proof.
  intros Hf. unfold run_turn, try_turn.
  destruct (completion env) as [e'|cs [u|e']]; simplify_eq/=.
  - reflexivity.
  - rewrite relay_chunks_world. unfold send_text, create, log; simpl.
    f_equal. by rewrite <- !app_assoc.
Qed.
End Turn.

(** ** Reading the trace *)

Lemma sent_of_frames (fs : list json) :
  omap (fun e => match e with Sent f => Some f | _ => None end) (map Sent fs) = fs.
Proof. induction fs as [|f fs IH]; simpl; [done | by f_equal]. Qed.

Lemma requests_of_frames (fs : list json) :
  omap (fun e => match e with Requested m ms => Some (m, ms) | _ => None end)
       (map Sent fs) = [].
Proof. induction fs as [|f fs IH]; simpl; done. Qed.

Lemma completion_cases (c : openai.Completion) :
  (exists cs u, c = openai.stream cs (Return u)) \/ (exists e, failure c = Some e).
Proof. destruct c as [e|cs [u|e]]; simpl; eauto. Qed.

Lemma frame_type_chunk text : frame_type (chunk_frame text) = Some (JStr "chunk").
Proof. unfold chunk_frame; simpl. by simplify_map_eq. Qed.

Lemma frame_type_done : frame_type done_frame = Some (JStr "done").
Proof. reflexivity. Qed.

Lemma frame_type_error text : frame_type (error_frame text) = Some (JStr "error").
Proof. unfold error_frame; simpl. by simplify_map_eq. Qed.

Lemma filter_chunk_frames (p : json -> bool) (texts : list string) :
  (forall text, p (chunk_frame text) = false) ->
  filter (fun f => p f = true) (map chunk_frame texts) = [].
Proof.
  intros Hp. induction texts as [|t texts IH]; simpl; [done |].
  rewrite filter_cons_False; [exact IH |]. by rewrite Hp.
Qed.

Lemma chunk_frame_not_error text : is_error (chunk_frame text) = false.
Proof. unfold is_error. by rewrite frame_type_chunk. Qed.

Lemma chunk_frame_not_terminal text : is_terminal (chunk_frame text) = false.
Proof. unfold is_terminal, is_done, is_error. by rewrite frame_type_chunk. Qed.

Lemma chunk_frames_all_chunks (texts : list string) :
  Forall (fun f => is_chunk f = true) (map chunk_frame texts).
Proof.
  apply Forall_forall. intros f Hf. apply list_elem_of_In, in_map_iff in Hf.
  destruct Hf as (t & <- & _). unfold is_chunk. by rewrite frame_type_chunk.
Qed.

Lemma frame_text_chunk text : frame_text (chunk_frame text) = Some (JStr text).
Proof. unfold chunk_frame; simpl. by simplify_map_eq. Qed.

Lemma frame_text_error text : frame_text (error_frame text) = Some (JStr text).
Proof. unfold error_frame; simpl. by simplify_map_eq. Qed.

Lemma chunk_frame_inj t1 t2 : chunk_frame t1 = chunk_frame t2 -> t1 = t2.
Proof.
  intros H. apply (f_equal frame_text) in H.
  rewrite !frame_text_chunk in H. congruence.
Qed.

(** ** The frames and the ledger after one turn *)

Section TurnFrames.
Variables (s : Session) (patient_text : json) (env : TurnEnv) (w : World).

Let texts := omap delta_text (delivered (completion env)).

Lemma sent_run_turn :
  sent (run_turn s patient_text env w) =
    sent w ++ map chunk_frame texts ++
    [match failure (completion env) with
     | None => done_frame
     | Some e => error_frame (websocket_error_text e)
     end].
Proof.
  subst texts.
  destruct (completion_cases (completion env)) as [(cs & u & Hc)|(e & He)].
  - rewrite (run_turn_completed s patient_text env cs u w Hc), Hc.
    unfold sent; simpl. rewrite omap_app; simpl.
    rewrite omap_app, sent_of_frames. done.
  - rewrite (run_turn_failed s patient_text env e w He), He.
    unfold sent; simpl. rewrite !omap_app, sent_of_frames.
    by destruct (completion env).
Qed.

Lemma ledger_run_turn :
  BILLING_RECORDS (run_turn s patient_text env w) =
    BILLING_RECORDS w ++
    match failure (completion env) with
    | None => [billing_record s env]
    | Some _ => []
    end.
Proof.
  destruct (completion_cases (completion env)) as [(cs & u & Hc)|(e & He)].
  - rewrite (run_turn_completed s patient_text env cs u w Hc), Hc. done.
  - rewrite (run_turn_failed s patient_text env e w He), He. simpl.
    by rewrite app_nil_r.
Qed.
End TurnFrames.

(** ** The ledger only grows *)

Lemma billing_debug_reads_only w :
  (billing_debug w).1 = w /\ records (billing_debug w).2 = BILLING_RECORDS w.
Proof. done. Qed.

Lemma iteration_ledger s r env w :
  BILLING_RECORDS w `prefix_of` BILLING_RECORDS (iteration s r env w).1.
Proof.
  unfold iteration.
  destruct r as [| |[]]; simpl; try done.
  case_match; simpl; [|done].
  rewrite ledger_run_turn. by apply prefix_app_r.
Qed.

Lemma websocket_loop_ledger s inputs : forall w,
  BILLING_RECORDS w `prefix_of` BILLING_RECORDS (websocket_loop s inputs w).1.
Proof.
  induction inputs as [|[r env] inputs IH]; intros w; simpl; [done |].
  pose proof (iteration_ledger s r env w) as Hstep.
  destruct (iteration s r env w) as [w' [|]]; simpl in *; [|done].
  by trans (BILLING_RECORDS w').
Qed.

(** ** Dispatch of one inbound frame *)

Lemma iteration_user_message s message env w :
  is_user_message message = true ->
  iteration s (Loaded (JObj message)) env w =
    (run_turn s (default (JStr "") (message !! "text")) env w, Idle).
Proof. unfold is_user_message, iteration. by intros ->. Qed.

Lemma iteration_other_dict s message env w :
  is_user_message message = false ->
  iteration s (Loaded (JObj message)) env w = (w, Idle).
Proof. unfold is_user_message, iteration. by intros ->. Qed.

Lemma is_user_message_sample text : is_user_message (user_message text) = true.
Proof. unfold is_user_message, user_message. by simplify_map_eq. Qed.

Lemma websocket_loop_step s r env rest w w' :
  iteration s r env w = (w', Idle) ->
  websocket_loop s ((r, env) :: rest) w = websocket_loop s rest w'.
Proof. intros H. cbn [websocket_loop]. by rewrite H. Qed.

Lemma websocket_loop_stop s r env rest w w' :
  iteration s r env w = (w', Closed) ->
  websocket_loop s ((r, env) :: rest) w = (w', Closed).
Proof. intros H. cbn [websocket_loop]. by rewrite H. Qed.

(** ** Chunk relay (C4) *)

Lemma delta_text_Some chunk text :
  delta_text chunk = Some text <->
  exists choice rest,
    openai.choices chunk = choice :: rest /\
    openai.content (openai.delta choice) = Some text /\ text <> "".
Proof.
  unfold delta_text. split.
  - destruct (openai.choices chunk) as [|choice rest]; [done |].
    destruct (openai.content (openai.delta choice)) as [[|c t]|] eqn:E; [done | | done].
    intros [= <-]. by exists choice, rest.
  - intros (choice & rest & -> & -> & Hne). by destruct text.
Qed.



(** The provider sequence of the specification's test, with a chunk
    without choices, one without content and one with empty content mixed
    in: the client sees the three texts in order, then [done]. *)
Example hello_world_frames :
  sent (run_turn (accept "s-1") (JStr "hi")
          (turn_env 0 (openai.stream
                         [chunk_of (Some "Hel"); bare_chunk; chunk_of None;
                          chunk_of (Some "lo, "); chunk_of (Some "");
                          chunk_of (Some "world")] (Return tt)) 1 sample_gmtime)
          empty_world) =
  [chunk_frame "Hel"; chunk_frame "lo, "; chunk_frame "world"; done_frame].
Proof. vm_compute. reflexivity. Qed.

(** ** Rounding and formatting *)






Example strftime_sample : strftime sample_gmtime = "2025-03-07 09:05:59".
Proof. reflexivity. Qed.

Example py_round_samples :
  py_round (7 # 3) 2 = (233 # 100)%Q /\ py_round (1 # 8) 2 = (12 # 100)%Q /\
  py_round (3 # 8) 2 = (38 # 100)%Q /\ py_round (-2) 2 = (-200 # 100)%Q.
Proof. repeat split; reflexivity. Qed.

(** ** Duration of a completed turn (C5) *)




(** ** Frames that start no turn (C6) *)

(** C6, as the code has it.  A frame that does not parse, or parses to
    something that is not a [user_message] dict, makes the handler send
    nothing and write nothing.  When it parsed to a dict the handler is
    back at [receive_text] and the loop goes on with the next frame; when
    it did not parse, or parsed to a value that is not a dict, the handler
    leaves the loop and the frames after it are not read. *)
Theorem unrecognised_frame_dropped s r env w :
  starts_turn r = false ->
  (iteration s r env w).1 = w /\
  (iteration s r env w).2 = (if is_dict r then Idle else Closed) /\
  (forall rest,
      websocket_loop s ((r, env) :: rest) w =
        if is_dict r then websocket_loop s rest w else (w, Closed)).
Proof.
  intros Hr.
  assert (Hi : iteration s r env w = (w, if is_dict r then Idle else Closed)).
  { destruct r as [| |[]]; simpl in *; try done.
    by apply iteration_other_dict. }
  rewrite Hi. split; [done |]. split; [done |].
  intros rest. destruct (is_dict r).
  - by apply websocket_loop_step.
  - by apply websocket_loop_stop.
Qed.

Lemma unrecognised_frame_dropped_witness :
  starts_turn (Loaded (JObj ping)) = false /\
  (iteration (accept "s-1") (Loaded (JObj ping)) hello_env empty_world).1 = empty_world /\
  (iteration (accept "s-1") (Loaded (JObj ping)) hello_env empty_world).2 = Idle.
Proof.
  split; [vm_compute; reflexivity |].
  destruct (unrecognised_frame_dropped (accept "s-1") (Loaded (JObj ping))
              hello_env empty_world) as (H1 & H2 & _).
  - vm_compute; reflexivity.
  - split; [exact H1 | exact H2].
Defined.

(** C6 fails as stated: after a frame that is not JSON the handler is out
    of the loop, and the [user_message] that follows on the same
    connection gets no answer, while the same [user_message] alone is
    answered. *)
Lemma malformed_frame_ends_session :
  websocket_chat "s-1"
    [(JSONDecodeError, hello_env);
     (Loaded (JObj (user_message "hello")), hello_env)] empty_world
  = (empty_world, Closed) /\
  websocket_chat "s-1"
    [(Loaded (JArr [JStr "user_message"]), hello_env);
     (Loaded (JObj (user_message "hello")), hello_env)] empty_world
  = (empty_world, Closed) /\
  sent (websocket_chat "s-1"
          [(Loaded (JObj (user_message "hello")), hello_env)] empty_world).1
  = [chunk_frame "Hel"; chunk_frame "lo, "; chunk_frame "world"; done_frame].
Proof. repeat split; vm_compute; reflexivity. Qed.

(** ** Substring test *)

Lemma append_cons c (a b : string) : String c a +:+ b = String c (a +:+ b).
Proof. reflexivity. Qed.

Lemma prefix_spec (n : string) : forall h,
  String.prefix n h = true <-> exists b, h = n +:+ b.
Proof.
  induction n as [|c n IH]; intros [|d h]; simpl.
  - split; [intros _; by exists "" | done].
  - split; [intros _; by exists (String d h) | done].
  - split; [done | intros (b & Hb); done].
  - destruct (ascii_dec c d) as [->|Hne].
    + rewrite IH. split; intros (b & Hb); exists b;
        rewrite append_cons in *; congruence.
    + split; [done | intros (b & Hb); rewrite append_cons in Hb; congruence].
Qed.

(** [py_in n h] holds exactly when [n] occurs in [h]. *)
Lemma py_in_spec (n : string) : forall h,
  py_in n h = true <-> exists a b, h = a +:+ n +:+ b.
Proof.
  induction h as [|d h IH]; cbn [py_in].
  - rewrite orb_false_r, prefix_spec. split.
    + intros (b & Hb). by exists "", b.
    + intros (a & b & Hab). destruct a; [by exists b |]. done.
  - rewrite orb_true_iff, IH, prefix_spec. split.
    + intros [(b & Hb)|(a & b & Hab)].
      * by exists "", b.
      * exists (String d a), b. by rewrite append_cons, Hab.
    + intros (a & b & Hab). destruct a as [|c a].
      * left. by exists b.
      * right. exists a, b. rewrite append_cons in Hab. congruence.
Qed.

Example mentions_api_key_samples :
  mentions_api_key "The api_key client option must be set" = true /\
  mentions_api_key "Error code: 401 - invalid_API_KEY" = true /\
  mentions_api_key "Incorrect API key provided" = false /\
  mentions_api_key "Rate limit reached" = false.
Proof. repeat split; vm_compute; reflexivity. Qed.

(** ** Error normalisation (C9) *)

(** C9.  The credential test is the occurrence of [api_key] in the
    lower-cased exception text.  When it succeeds, the [error] frame of
    the websocket turn carries the fixed configuration message of the
    websocket handler, and the [500] responses of [/api/stt] and
    [/api/tts] carry the fixed message of the conversion endpoints; when
    it fails, all three carry the exception text itself. *)
Theorem credential_errors_normalised (e : string) :
  (mentions_api_key e = true <-> exists a b, lower e = a +:+ "api_key" +:+ b) /\
  (forall s patient_text t0 cs t1 g w,
      last (sent (run_turn s patient_text
                    (turn_env t0 (openai.stream cs (Raise e)) t1 g) w)) =
      Some (error_frame
              (if mentions_api_key e
               then "OpenAI API key not configured. Please set OPENAI_API_KEY in Replit Secrets."
               else e))) /\
  (forall s patient_text t0 t1 g w,
      last (sent (run_turn s patient_text
                    (turn_env t0 (openai.no_client e) t1 g) w)) =
      Some (error_frame
              (if mentions_api_key e
               then "OpenAI API key not configured. Please set OPENAI_API_KEY in Replit Secrets."
               else e))) /\
  speech_to_text (Raise e) =
    error_response (if mentions_api_key e then "OpenAI API key not configured" else e) /\
  text_to_speech (Raise e) =
    error_response (if mentions_api_key e then "OpenAI API key not configured" else e).
Proof.
  split; [apply py_in_spec |].
  split.
  { intros. rewrite sent_run_turn. simpl.
    by rewrite app_assoc, last_snoc. }
  split.
  { intros. rewrite sent_run_turn. simpl.
    by rewrite last_snoc. }
  split; reflexivity.
Qed.

Example api_key_error_surfaces :
  speech_to_text (Raise "The api_key client option must be set") =
    error_response "OpenAI API key not configured" /\
  text_to_speech (Raise "Rate limit reached") = error_response "Rate limit reached" /\
  sent (run_turn (accept "s-1") (JStr "hi")
          (turn_env 0 (openai.no_client "The api_key client option must be set")
             1 sample_gmtime) empty_world) =
    [error_frame "OpenAI API key not configured. Please set OPENAI_API_KEY in Replit Secrets."].
Proof. repeat split; vm_compute; reflexivity. Qed.

(** ** Message building (C8) *)

(** C8.  [build_messages] never returns the empty list: its first entry is
    the master prompt as a [system] message, its last entry the patient
    text as a [user] message; with a whisper that is present and not empty
    the list has three entries, the second being the whisper as a [system]
    message, and otherwise it has two.  Both arguments are immutable
    values, and the function is a pure one of them. *)
Theorem build_messages_shape (patient_text : json) (therapist_whisper : option string) :
  build_messages patient_text therapist_whisper <> [] /\
  head (build_messages patient_text therapist_whisper) =
    Some {| role := "system"; content := JStr MASTER_THERAPY_PROMPT |} /\
  last (build_messages patient_text therapist_whisper) =
    Some {| role := "user"; content := patient_text |} /\
  length (build_messages patient_text therapist_whisper) =
    (if truthy therapist_whisper then 3 else 2)%nat /\
  match therapist_whisper with
  | Some whisper =>
      if decide (whisper = "")
      then build_messages patient_text therapist_whisper !! 1%nat =
             Some {| role := "user"; content := patient_text |}
      else build_messages patient_text therapist_whisper !! 1%nat =
             Some {| role := "system"; content := JStr whisper |}
  | None =>
      build_messages patient_text therapist_whisper !! 1%nat =
        Some {| role := "user"; content := patient_text |}
  end.
Proof.
  unfold build_messages.
  destruct therapist_whisper as [[|c whisper]|]; simpl; repeat split; done.
Qed.

Example build_messages_samples :
  build_messages (JStr "I feel anxious") None =
    [ {| role := "system"; content := JStr MASTER_THERAPY_PROMPT |};
      {| role := "user"; content := JStr "I feel anxious" |} ] /\
  build_messages (JStr "I feel anxious") (Some "Keep it brief") =
    [ {| role := "system"; content := JStr MASTER_THERAPY_PROMPT |};
      {| role := "system"; content := JStr "Keep it brief" |};
      {| role := "user"; content := JStr "I feel anxious" |} ] /\
  build_messages (JStr "I feel anxious") (Some "") =
    build_messages (JStr "I feel anxious") None.
Proof. repeat split. Qed.

(** ** A frame without text (C10) *)

Lemma requests_run_turn s patient_text env w :
  requests (run_turn s patient_text env w) =
    requests w ++
    match completion env with
    | openai.no_client _ => []
    | openai.stream _ _ => [(model_name s, build_messages patient_text None)]
    end.
Proof.
  destruct (completion_cases (completion env)) as [(cs & u & Hc)|(e & He)].
  - rewrite (run_turn_completed s patient_text env cs u w Hc), Hc.
    unfold requests; simpl. rewrite omap_app; simpl.
    by rewrite omap_app, requests_of_frames.
  - rewrite (run_turn_failed s patient_text env e w He).
    unfold requests; simpl. rewrite !omap_app, requests_of_frames.
    by destruct (completion env).
Qed.

(** C10.  A dict of type [user_message] without a ["text"] entry is not
    dropped: the handler runs the turn on the empty string.  The provider
    is asked once, with the master prompt followed by an empty [user]
    message, and the ledger ends up exactly as after a frame of the same
    session and environment that carries a text: one more record when the
    stream ends normally, none when it fails. *)
Theorem missing_text_runs_empty_turn s message env cs fin w :
  is_user_message message = true ->
  message !! "text" = None ->
  completion env = openai.stream cs fin ->
  iteration s (Loaded (JObj message)) env w = (run_turn s (JStr "") env w, Idle) /\
  requests (iteration s (Loaded (JObj message)) env w).1 =
    requests w ++
    [(model_name s,
      [ {| role := "system"; content := JStr MASTER_THERAPY_PROMPT |};
        {| role := "user"; content := JStr "" |} ])] /\
  BILLING_RECORDS (iteration s (Loaded (JObj message)) env w).1 =
    BILLING_RECORDS w ++
    match fin with
    | Return _ => [billing_record s env]
    | Raise _ => []
    end /\
  (forall text,
      BILLING_RECORDS (iteration s (Loaded (JObj message)) env w).1 =
      BILLING_RECORDS (iteration s (Loaded (JObj (user_message text))) env w).1).
Proof.
  intros Hm Ht Hc.
  assert (Hi : iteration s (Loaded (JObj message)) env w =
               (run_turn s (JStr "") env w, Idle)).
  { rewrite iteration_user_message by done. by rewrite Ht. }
  rewrite Hi. cbn [fst].
  split; [done |].
  split; [by rewrite requests_run_turn, Hc |].
  split; [rewrite ledger_run_turn, Hc; by destruct fin |].
  intros text.
  rewrite (iteration_user_message s (user_message text) env w)
    by apply is_user_message_sample.
  cbn [fst]. by rewrite !ledger_run_turn.
Qed.

Lemma missing_text_runs_empty_turn_witness :
  is_user_message textless = true /\
  textless !! "text" = None /\
  completion hello_env =
    openai.stream [chunk_of (Some "Hel"); chunk_of (Some "lo, ");
                   chunk_of (Some "world")] (Return tt) /\
  iteration (accept "s-1") (Loaded (JObj textless)) hello_env empty_world =
    (run_turn (accept "s-1") (JStr "") hello_env empty_world, Idle) /\
  BILLING_RECORDS (iteration (accept "s-1") (Loaded (JObj textless))
                     hello_env empty_world).1 =
    [billing_record (accept "s-1") hello_env].
Proof.
  split; [vm_compute; reflexivity |].
  split; [vm_compute; reflexivity |].
  split; [reflexivity |].
  destruct (missing_text_runs_empty_turn (accept "s-1") textless hello_env
              [chunk_of (Some "Hel"); chunk_of (Some "lo, "); chunk_of (Some "world")]
              (Return tt) empty_world) as (Hi & _ & Hl & _).
  - vm_compute; reflexivity.
  - vm_compute; reflexivity.
  - reflexivity.
  - split; [exact Hi | exact Hl].
Defined.

(** ** Content isolation of the ledger (C1) *)

(** C1, as the code has it.  The record of a completed turn is made of the
    session id, the model name and the three clock readings and of nothing
    else: two turns of the same session, from the same ledger and with the
    same readings, append the same record whatever the two user texts and
    the two chunk sequences are. *)
Theorem billing_record_ignores_content s m1 m2 t0 t1 g cs1 cs2 u1 u2 w :
  is_user_message m1 = true ->
  is_user_message m2 = true ->
  BILLING_RECORDS
    (iteration s (Loaded (JObj m1)) (turn_env t0 (openai.stream cs1 (Return u1)) t1 g) w).1
  = BILLING_RECORDS w ++
      [ {| session_id := sid s;
           duration_seconds := py_round (t1 - t0) 2;
           model := model_name s;
           timestamp := strftime g |} ] /\
  BILLING_RECORDS
    (iteration s (Loaded (JObj m1)) (turn_env t0 (openai.stream cs1 (Return u1)) t1 g) w).1
  = BILLING_RECORDS
    (iteration s (Loaded (JObj m2)) (turn_env t0 (openai.stream cs2 (Return u2)) t1 g) w).1.
Proof.
  intros H1 H2.
  rewrite !iteration_user_message by done. cbn [fst].
  rewrite !ledger_run_turn. done.
Qed.

Lemma billing_record_ignores_content_witness :
  is_user_message (user_message "I feel anxious") = true /\
  is_user_message textless = true /\
  BILLING_RECORDS
    (iteration (accept "s-1") (Loaded (JObj (user_message "I feel anxious")))
       (turn_env 10 (openai.stream [chunk_of (Some "Hel")] (Return tt)) 11 sample_gmtime)
       empty_world).1
  = BILLING_RECORDS
    (iteration (accept "s-1") (Loaded (JObj textless))
       (turn_env 10 (openai.stream [chunk_of (Some "So"); chunk_of (Some "rry")]
                       (Return tt)) 11 sample_gmtime)
       empty_world).1.
Proof.
  split; [vm_compute; reflexivity |].
  split; [vm_compute; reflexivity |].
  apply (billing_record_ignores_content (accept "s-1")
           (user_message "I feel anxious") textless 10 11 sample_gmtime
           [chunk_of (Some "Hel")] [chunk_of (Some "So"); chunk_of (Some "rry")]
           tt tt empty_world).
  - vm_compute; reflexivity.
  - vm_compute; reflexivity.
Defined.

(** C1 fails as stated: the model name and the timestamp are text too, and
    a user may type, or the provider may stream, a string that occurs in
    them.  Here the user text is the model name and the chunk is the
    current year. *)
Lemma content_occurs_in_record_fields :
  sent (iteration (accept "s-1") (Loaded (JObj (user_message "gpt-4o-mini")))
          decoy_env empty_world).1 = [chunk_frame "2025"; done_frame] /\
  exists r,
    BILLING_RECORDS
      (iteration (accept "s-1") (Loaded (JObj (user_message "gpt-4o-mini")))
         decoy_env empty_world).1 = [r] /\
    py_in "gpt-4o-mini" (model r) = true /\
    py_in "2025" (timestamp r) = true.
Proof.
  split; [vm_compute; reflexivity |].
  eexists. split; [vm_compute; reflexivity |].
  split; vm_compute; reflexivity.
Qed.

(** ** Whole sessions *)

Lemma iteration_not_dict s r env w :
  is_dict r = false -> iteration s r env w = (w, Closed).
Proof. by destruct r as [| |[]]. Qed.

(** The loop, read off the list of turns it runs. *)
Lemma websocket_loop_summary s inputs : forall w,
  (websocket_loop s inputs w).2 = (if closes inputs then Closed else Idle) /\
  BILLING_RECORDS (websocket_loop s inputs w).1 =
    BILLING_RECORDS w ++
    map (fun t => billing_record s t.2) (filter (fun t => completes t = true) (turns inputs)) /\
  sent (websocket_loop s inputs w).1 = sent w ++ flat_map turn_frames (turns inputs) /\
  requests (websocket_loop s inputs w).1 =
    requests w ++ flat_map (turn_requests s) (turns inputs).
Proof.
  induction inputs as [|[r env] inputs IH]; intros w.
  - simpl. by rewrite !app_nil_r.
  - destruct (is_dict r) eqn:Hd.
    + destruct r as [| |[]]; try done.
      assert (Hc : closes ((Loaded (JObj m), env) :: inputs) = closes inputs)
        by reflexivity.
      rewrite Hc. destruct (is_user_message m) eqn:Hm.
      * assert (Ht : turns ((Loaded (JObj m), env) :: inputs) =
                     (default (JStr "") (m !! "text"), env) :: turns inputs)
          by (cbn [turns]; by rewrite Hm).
        rewrite Ht.
        rewrite (websocket_loop_step s _ env inputs w _ (iteration_user_message s m env w Hm)).
        destruct (IH (run_turn s (default (JStr "") (m !! "text")) env w))
          as (Hs & Hl & Hf & Hq).
        rewrite Hs, Hl, Hf, Hq.
        rewrite ledger_run_turn, sent_run_turn, requests_run_turn.
        rewrite <- !app_assoc.
        split; [done |]. split; [| split].
        -- f_equal. destruct (failure (completion env)) eqn:E.
           ++ rewrite filter_cons_False; [done |].
              unfold completes; cbn [snd]. by rewrite E.
           ++ rewrite filter_cons_True; [done |].
              unfold completes; cbn [snd]. by rewrite E.
        -- f_equal. cbn [flat_map]. unfold turn_frames. cbn [snd].
           by rewrite <- app_assoc.
        -- f_equal.
      * assert (Ht : turns ((Loaded (JObj m), env) :: inputs) = turns inputs)
          by (cbn [turns]; by rewrite Hm).
        rewrite Ht.
        rewrite (websocket_loop_step s _ env inputs w _ (iteration_other_dict s m env w Hm)).
        apply IH.
    + rewrite (websocket_loop_stop s r env inputs w _ (iteration_not_dict s r env w Hd)).
      assert (Ht : turns ((r, env) :: inputs) = []) by (by destruct r as [| |[]]).
      rewrite Ht. unfold closes. cbn [existsb fst]. rewrite Hd. simpl.
      by rewrite !app_nil_r.
Qed.

Lemma chunk_frame_not_done text : is_done (chunk_frame text) = false.
Proof. unfold is_done. by rewrite frame_type_chunk. Qed.

Lemma done_frames_of_turn t :
  filter (fun f => is_done f = true) (turn_frames t) =
    if completes t then [done_frame] else [].
Proof.
  unfold turn_frames, completes.
  rewrite filter_app, (filter_chunk_frames is_done) by apply chunk_frame_not_done.
  destruct (failure (completion t.2)); simpl.
  - rewrite filter_cons_False; [done |].
    unfold is_done. by rewrite frame_type_error.
  - by rewrite filter_cons_True.
Qed.

Lemma terminal_frames_of_turn t :
  length (filter (fun f => is_terminal f = true) (turn_frames t)) = 1%nat.
Proof.
  unfold turn_frames.
  rewrite filter_app, (filter_chunk_frames is_terminal) by apply chunk_frame_not_terminal.
  simpl. rewrite filter_cons_True; [done |].
  unfold is_terminal, is_done, is_error.
  destruct (failure (completion t.2)).
  - by rewrite frame_type_error.
  - by rewrite frame_type_done.
Qed.

Lemma done_frames_of_turns ts :
  length (filter (fun f => is_done f = true) (flat_map turn_frames ts)) =
  length (filter (fun t => completes t = true) ts).
Proof.
  induction ts as [|t ts IH]; [done |].
  cbn [flat_map]. rewrite filter_app, length_app, IH, done_frames_of_turn.
  destruct (completes t) eqn:E.
  - by rewrite filter_cons_True.
  - rewrite filter_cons_False; [done | by rewrite E].
Qed.

Lemma terminal_frames_of_turns ts :
  length (filter (fun f => is_terminal f = true) (flat_map turn_frames ts)) = length ts.
Proof.
  induction ts as [|t ts IH]; [done |].
  cbn [flat_map]. rewrite filter_app, length_app, IH, terminal_frames_of_turn. done.
Qed.

(** X1.  Every record that a connection appends carries the session id drawn at
    [accept] and the model name [gpt-4o-mini], whatever arrives on the
    connection and whatever the ledger held before: records of different
    connections cannot be mixed up. *)
Theorem session_records_tagged uuid4 inputs w :
  exists new,
    BILLING_RECORDS (websocket_chat uuid4 inputs w).1 = BILLING_RECORDS w ++ new /\
    Forall (fun r => session_id r = uuid4 /\ model r = "gpt-4o-mini") new /\
    (length new <= length inputs)%nat.
Proof.
  unfold websocket_chat.
  destruct (websocket_loop_summary (accept uuid4) inputs w) as (_ & Hl & _).
  eexists. split; [exact Hl |]. split.
  - apply Forall_forall. intros r Hr.
    apply list_elem_of_In, in_map_iff in Hr. by destruct Hr as (t & <- & _).
  - rewrite length_map.
    etrans; [apply length_filter |].
    clear Hl. induction inputs as [|[[| |[]] env] inputs IH]; simpl; try lia.
    rewrite length_app. destruct (is_user_message m); simpl; lia.
Qed.

(** X3.  Every request that a connection makes to the completion provider names
    the model [gpt-4o-mini] and carries exactly two messages: the master
    prompt as the [system] message and one [user] message.  No whisper is
    ever sent, and no request goes out without the master prompt. *)
Theorem session_requests_carry_master_prompt uuid4 inputs w :
  exists new,
    requests (websocket_chat uuid4 inputs w).1 = requests w ++ new /\
    Forall (fun q =>
              q.1 = "gpt-4o-mini" /\
              exists patient_text,
                q.2 = [ {| role := "system"; content := JStr MASTER_THERAPY_PROMPT |};
                        {| role := "user"; content := patient_text |} ]) new.
Proof.
  unfold websocket_chat.
  destruct (websocket_loop_summary (accept uuid4) inputs w) as (_ & _ & _ & Hq).
  eexists. split; [exact Hq |].
  apply Forall_forall. intros q Hin.
  apply list_elem_of_In, in_flat_map in Hin. destruct Hin as ([text env] & _ & Hin).
  unfold turn_requests in Hin. cbn [fst snd] in Hin.
  destruct (completion env); [by destruct Hin |].
  destruct Hin as [<-|[]]. split; [done |]. by exists text.
Qed.

(** X5.  Dicts whose type is not [user_message] are no-ops wherever they occur:
    a connection behaves the same with them taken out of its input. *)
Theorem noop_frames_removable s inputs w :
  websocket_loop s (filter (fun i => is_noop i = false) inputs) w =
  websocket_loop s inputs w.
Proof.
  revert w. induction inputs as [|[r env] inputs IH]; intros w; [done |].
  destruct (is_noop (r, env)) eqn:Hn.
  - rewrite filter_cons_False by (by rewrite Hn).
    unfold is_noop in Hn. cbn [fst] in Hn.
    destruct r as [| |[]]; try done. simpl in Hn.
    apply negb_true_iff in Hn.
    rewrite (websocket_loop_step s _ env inputs w _
               (iteration_other_dict s m env w Hn)).
    apply IH.
  - rewrite filter_cons_True by done.
    cbn [websocket_loop].
    destruct (iteration s r env w) as [w' [|]]; [apply IH | done].
Qed.

(** X6.  The handler never sends the patient's text back: with the provider
    behaving the same, the frames sent for a turn are the same whatever
    the text of the frame that started it. *)
Theorem frames_ignore_patient_text s m1 m2 env w :
  is_user_message m1 = true ->
  is_user_message m2 = true ->
  sent (iteration s (Loaded (JObj m1)) env w).1 =
  sent (iteration s (Loaded (JObj m2)) env w).1.
Proof.
  intros H1 H2. rewrite !iteration_user_message by done. cbn [fst].
  by rewrite !sent_run_turn.
Qed.

Lemma frames_ignore_patient_text_witness :
  is_user_message (user_message "I feel anxious") = true /\
  is_user_message textless = true /\
  sent (iteration (accept "s-1") (Loaded (JObj (user_message "I feel anxious")))
          hello_env empty_world).1 =
  sent (iteration (accept "s-1") (Loaded (JObj textless)) hello_env empty_world).1.
Proof.
  split; [vm_compute; reflexivity |].
  split; [vm_compute; reflexivity |].
  apply (frames_ignore_patient_text (accept "s-1") (user_message "I feel anxious")
           textless hello_env empty_world); vm_compute; reflexivity.
Defined.



Example two_turns_one_connection :
  total_sessions
    (billing_debug
       (websocket_chat "s-1"
          [(Loaded (JObj (user_message "hello")), hello_env);
           (Loaded (JObj ping), hello_env);
           (Loaded (JObj (user_message "again")), failing_env);
           (Loaded (JObj textless), hello_env)] empty_world).1).2 = 2%nat.
Proof. vm_compute. reflexivity. Qed.

(** ** The client singleton *)

Lemma get_openai_client_cached AsyncOpenAI st c :
  _openai_client st = Some c ->
  get_openai_client AsyncOpenAI st = (st, Return c).
Proof. unfold get_openai_client. by intros ->. Qed.

(** X9.  Once a client is cached, every later call returns that same client,
    leaves the cache as it is and does not call the constructor, whatever
    the constructor would do. *)
Theorem client_reused_once_cached outcomes st c :
  _openai_client st = Some c ->
  get_openai_client_calls outcomes st = (st, map (fun _ => Return c) outcomes).
Proof.
  intros Hc. induction outcomes as [|o outcomes IH]; [done |].
  cbn [get_openai_client_calls map].
  by rewrite (get_openai_client_cached o st c Hc), IH.
Qed.

Lemma client_reused_once_cached_witness :
  _openai_client {| _openai_client := Some 7%nat; constructions := 1 |} = Some 7%nat /\
  get_openai_client_calls [Raise "no key"; Return 8%nat]
    {| _openai_client := Some 7%nat; constructions := 1 |} =
  ({| _openai_client := Some 7%nat; constructions := 1 |}, [Return 7%nat; Return 7%nat]).
Proof.
  split; [reflexivity |].
  apply (client_reused_once_cached [Raise "no key"; Return 8%nat]
           {| _openai_client := Some 7%nat; constructions := 1 |} 7%nat).
  reflexivity.
Defined.

(** X10.  From an empty cache, a constructor failure is raised to the caller and
    not remembered: each call constructs again until the constructor first
    succeeds; that client is then cached and returned by every later call,
    and the constructor is not called again. *)
Theorem client_constructed_until_first_success (errors : list string) (c : Client)
    (later : list (result Client)) (n : nat) :
  get_openai_client_calls (map Raise errors ++ Return c :: later)
    {| _openai_client := None; constructions := n |} =
  ({| _openai_client := Some c; constructions := n + length errors + 1 |},
   map Raise errors ++ Return c :: map (fun _ => Return c) later).
Proof.
  revert n. induction errors as [|e errors IH]; intros n.
  - cbn [map app get_openai_client_calls get_openai_client _openai_client constructions length].
    rewrite (client_reused_once_cached later _ c) by done.
    do 2 f_equal. lia.
  - cbn [map app get_openai_client_calls get_openai_client _openai_client constructions length].
    fold (map (@Raise Client) errors). rewrite (IH (S n)).
    do 2 f_equal. lia.
Qed.

(** ** The conversion routes *)

(** X11.  [/api/stt] makes at most one provider request; when it makes none,
    because the client cannot be had or the upload cannot be read, it
    answers [500].  The request names
    the model [whisper-1] and the format [text], carries the uploaded bytes
    unchanged, and always has a file name: the upload's own when it has a
    non-empty one, [audio.webm] otherwise. *)
Theorem stt_request_shape AsyncOpenAI audio transcribe st :
  ((api_stt AsyncOpenAI audio transcribe st).1.2 = [] /\
   status_of (api_stt AsyncOpenAI audio transcribe st).2 = 500%nat \/
   exists q, (api_stt AsyncOpenAI audio transcribe st).1.2 = [q]) /\
  Forall (fun q =>
            transcription_model q = "whisper-1" /\
            transcription_format q = "text" /\
            read audio = Return (file_content q) /\
            file_name q <> "" /\
            file_name q = (if truthy (filename audio)
                           then default "" (filename audio) else "audio.webm"))
         (api_stt AsyncOpenAI audio transcribe st).1.2.
Proof.
  unfold api_stt.
  destruct (get_openai_client AsyncOpenAI st) as [st' [c|e]]; cbn [stt_try].
  - destruct (read audio) as [content|e] eqn:Hr; cbn [fst snd].
    + split; [right; eauto |].
      constructor; [| constructor]. cbn.
      destruct (filename audio) as [[|a name]|]; done.
    + split; [by left | constructor].
  - cbn [fst snd]. split; [by left | constructor].
Qed.

(** X12.  Both conversion routes answer every failure of their [try] block with
    status [500] and a JSON body [{"error": message}], the same for the two
    routes, and the message never contains [api_key] in any casing: a
    provider text that mentions it is replaced, any other is passed on. *)
Theorem conversion_errors_never_mention_api_key (e : string) :
  speech_to_text (Raise e) = error_response (http_error_text e) /\
  text_to_speech (Raise e) = error_response (http_error_text e) /\
  status_of (error_response (http_error_text e)) = 500%nat /\
  mentions_api_key (http_error_text e) = false /\
  (http_error_text e = e \/ mentions_api_key e = true).
Proof.
  split; [done |]. split; [done |]. split; [done |].
  unfold http_error_text. destruct (mentions_api_key e) eqn:E.
  - split; [vm_compute; reflexivity | by right].
  - split; [done | by left].
Qed.

(** X13.  [/api/tts] makes at most one provider request, which names the
    model [tts-1], the voice [nova] and the format [mp3] and carries the
    text of the body unchanged; the answer is [200] exactly when that
    request returned audio bytes, and it is then those bytes as
    [audio/mpeg] with the inline [Content-Disposition] header. *)
Theorem tts_request_and_answer AsyncOpenAI text synthesize st :
  (length (api_tts AsyncOpenAI text synthesize st).1.2 <= 1)%nat /\
  Forall (fun q => q = {| speech_model := "tts-1"; voice := "nova";
                          input := text; speech_format := "mp3" |})
         (api_tts AsyncOpenAI text synthesize st).1.2 /\
  (status_of (api_tts AsyncOpenAI text synthesize st).2 = 200%nat <->
   exists q audio_bytes,
     (api_tts AsyncOpenAI text synthesize st).1.2 = [q] /\
     synthesize q = Return audio_bytes /\
     (api_tts AsyncOpenAI text synthesize st).2 =
       fastapi.Resp {|
         fastapi.content := fastapi.bytes audio_bytes;
         fastapi.status_code := 200;
         fastapi.media_type := "audio/mpeg";
         fastapi.headers := [("Content-Disposition", "inline; filename=response.mp3")] |}).
Proof.
  unfold api_tts.
  destruct (get_openai_client AsyncOpenAI st) as [st' [c|e]]; cbn [tts_try].
  - set (q := {| speech_model := "tts-1"; voice := "nova";
                 input := text; speech_format := "mp3" |}).
    destruct (synthesize q) as [audio_bytes|e] eqn:Hs; cbn [fst snd length].
    + split; [lia |]. split; [by repeat constructor |].
      split; [intros _ | done]. by exists q, audio_bytes.
    + split; [lia |]. split; [by repeat constructor |].
      split; [done |]. intros (q' & b & [= <-] & Hq & _). congruence.
  - cbn [fst snd length]. split; [lia |]. split; [constructor |].
    split; [done |]. by intros (q' & b & ? & _).
Qed.

(** X14.  With a client cached, a call of [/api/stt] or of [/api/tts]
    leaves the cache as it is and does not depend on what the constructor
    would do: the handlers share the one cached client. *)
Theorem routes_share_cached_client AsyncOpenAI audio transcribe text synthesize st c :
  _openai_client st = Some c ->
  (api_stt AsyncOpenAI audio transcribe st).1.1 = st /\
  (api_tts AsyncOpenAI text synthesize st).1.1 = st /\
  api_stt AsyncOpenAI audio transcribe st =
    api_stt (Raise "unused") audio transcribe st /\
  api_tts AsyncOpenAI text synthesize st =
    api_tts (Raise "unused") text synthesize st.
Proof.
  intros Hc. unfold api_stt, api_tts.
  rewrite !(get_openai_client_cached _ st c Hc).
  split_and!; try done.
  by destruct (stt_try _ _ _).
Qed.

Lemma routes_share_cached_client_witness :
  _openai_client {| _openai_client := Some 7%nat; constructions := 1 |} = Some 7%nat /\
  (api_tts (Return 8%nat) "Hello" (fun _ => Return [])
     {| _openai_client := Some 7%nat; constructions := 1 |}).1.1 =
  {| _openai_client := Some 7%nat; constructions := 1 |}.
Proof.
  split; [reflexivity |].
  apply (routes_share_cached_client (Return 8%nat)
           {| filename := None; read := Return [] |} (fun _ => Return "")
           "Hello" (fun _ => Return [])
           {| _openai_client := Some 7%nat; constructions := 1 |} 7%nat).
  reflexivity.
Defined.

(** ** Case-insensitive detection *)

Lemma lower_app (a b : string) : lower (a +:+ b) = lower a +:+ lower b.
Proof.
  induction a as [|c a IH]; [done |].
  rewrite append_cons. cbn [lower]. by rewrite append_cons, IH.
Qed.

(** X15.  The credential test does not depend on letter case or position: an
    exception text that contains [api_key] in any casing, such as
    [OPENAI_API_KEY], anywhere, is recognised. *)
Theorem api_key_detected_in_any_case (a k b : string) :
  lower k = "api_key" ->
  mentions_api_key (a +:+ k +:+ b) = true.
Proof.
  intros Hk. unfold mentions_api_key.
  apply py_in_spec. exists (lower a), (lower b).
  by rewrite !lower_app, Hk.
Qed.

Lemma api_key_detected_in_any_case_witness :
  lower "Api_Key" = "api_key" /\
  mentions_api_key ("Missing OPENAI_" +:+ "Api_Key" +:+ " variable") = true.
Proof.
  split; [reflexivity |].
  apply (api_key_detected_in_any_case "Missing OPENAI_" "Api_Key" " variable").
  reflexivity.
Defined.

(** ** The handler on a connection that may drop *)

Lemma sends_ok_weaken n k link : sends_ok (n + k) link = true -> sends_ok n link = true.
Proof.
  unfold sends_ok. revert link. induction n as [|n IH]; intros link; [done |].
  destruct link as [|[u|e] link]; simpl; [done | apply IH | done].
Qed.

Lemma websocket_send_text_ok frame w n link :
  sends_ok (S n) link = true ->
  websocket_send_text frame w link = (send_text w frame, drop 1 link, Return tt) /\
  sends_ok n (drop 1 link) = true.
Proof.
  unfold sends_ok. destruct link as [|[[]|e] link]; simpl; try done.
  intros _. split; [done |]. by rewrite take_nil.
Qed.

Lemma relay_chunk_on_eq chunk w link :
  relay_chunk_on chunk w link =
    match delta_text chunk with
    | Some text => websocket_send_text (chunk_frame text) w link
    | None => (w, link, Return tt)
    end.
Proof.
  unfold relay_chunk_on, delta_text.
  destruct (openai.choices chunk) as [|choice rest]; [done |].
  by destruct (openai.content (openai.delta choice)) as [[|c text]|].
Qed.

Lemma relay_chunk_eq chunk w :
  relay_chunk w chunk =
    match delta_text chunk with
    | Some text => send_text w (chunk_frame text)
    | None => w
    end.
Proof.
  unfold relay_chunk, delta_text.
  destruct (openai.choices chunk) as [|choice rest]; [done |].
  by destruct (openai.content (openai.delta choice)) as [[|c text]|].
Qed.

Lemma chunk_texts_cons chunk cs :
  omap delta_text (chunk :: cs) =
    match delta_text chunk with
    | Some text => text :: omap delta_text cs
    | None => omap delta_text cs
    end.
Proof. reflexivity. Qed.

Lemma async_for_sends_ok cs : forall w k link,
  sends_ok (length (omap delta_text cs) + k) link = true ->
  async_for cs w link =
    (fold_left relay_chunk cs w, drop (length (omap delta_text cs)) link, Return tt) /\
  sends_ok k (drop (length (omap delta_text cs)) link) = true.
Proof.
  induction cs as [|chunk cs IH]; intros w k link Hok; [done |].
  cbn [async_for fold_left]. rewrite relay_chunk_on_eq, relay_chunk_eq.
  rewrite chunk_texts_cons in *.
  destruct (delta_text chunk) as [text|]; [| by apply IH].
  cbn [length Nat.add] in Hok.
  destruct (websocket_send_text_ok (chunk_frame text) w _ link Hok) as [-> Hok'].
  destruct (IH (send_text w (chunk_frame text)) k (drop 1 link) Hok') as [-> Hk].
  cbn [length]. rewrite drop_drop in *. by rewrite Nat.add_1_l in *.
Qed.

Lemma run_turn_on_sends_ok s patient_text env w link :
  sends_ok (length (chunk_texts env) + 1) link = true ->
  run_turn_on s patient_text env w link =
    (run_turn s patient_text env w, drop (length (chunk_texts env) + 1) link, Return tt).
Proof.
  unfold chunk_texts, run_turn_on, run_turn, try_turn_on, try_turn.
  destruct (completion env) as [e|cs fin]; cbn [delivered]; intros Hok.
  - by erewrite (proj1 (websocket_send_text_ok _ _ 0 _ Hok)).
  - destruct (async_for_sends_ok cs
                (create w (model_name s) (build_messages patient_text None)) 1 link Hok)
      as [-> Hok'].
    rewrite <- drop_drop.
    destruct fin as [u|e]; by erewrite (proj1 (websocket_send_text_ok _ _ 0 _ Hok')).
Qed.

Lemma iteration_on_sends_ok s message env w link :
  is_user_message message = true ->
  sends_ok (length (chunk_texts env) + 1) link = true ->
  iteration_on s (Loaded (JObj message)) env w link =
    ((iteration s (Loaded (JObj message)) env w).1,
     drop (length (chunk_texts env) + 1) link, Idle).
Proof.
  intros Hm Hok. rewrite iteration_user_message by done.
  unfold iteration_on. unfold is_user_message in Hm. rewrite Hm.
  by rewrite run_turn_on_sends_ok.
Qed.

Lemma iteration_on_no_turn s r env w link :
  starts_turn r = false ->
  iteration_on s r env w link = ((iteration s r env w).1, link, (iteration s r env w).2).
Proof.
  destruct r as [| |[]]; try done. simpl. unfold is_user_message. by intros ->.
Qed.

Lemma sends_ok_nil n : sends_ok n [] = true.
Proof. unfold sends_ok. by rewrite take_nil. Qed.

Lemma websocket_loop_on_open s inputs : forall w,
  websocket_loop_on s inputs w [] =
    ((websocket_loop s inputs w).1, [], (websocket_loop s inputs w).2).
Proof.
  induction inputs as [|[r env] inputs IH]; intros w; [done |].
  cbn [websocket_loop_on websocket_loop].
  destruct (starts_turn r) eqn:Ht.
  - destruct r as [| |[]]; try done.
    rewrite (iteration_on_sends_ok s m env w [] Ht (sends_ok_nil _)).
    rewrite (iteration_user_message s m env w Ht). cbn [fst].
    rewrite drop_nil. apply IH.
  - rewrite (iteration_on_no_turn s r env w [] Ht).
    destruct (iteration s r env w) as [w' [|]]; cbn [fst snd]; [apply IH | done].
Qed.

Lemma sent_send_text w f : sent (send_text w f) = sent w ++ [f].
Proof. unfold sent, send_text, log; simpl. by rewrite omap_app. Qed.

Lemma sent_append w r : sent (append w r) = sent w.
Proof. unfold sent, append, log; simpl. by rewrite omap_app, app_nil_r. Qed.

Lemma sent_create w m ms : sent (create w m ms) = sent w.
Proof. unfold sent, create, log; simpl. by rewrite omap_app, app_nil_r. Qed.

Lemma websocket_send_text_cases frame w link :
  (exists link', websocket_send_text frame w link = (send_text w frame, link', Return tt)) \/
  (exists link' e, websocket_send_text frame w link = (w, link', Raise e)).
Proof. destruct link as [|[[]|e] link]; simpl; eauto. Qed.

Lemma async_for_shape cs : forall w link,
  exists texts,
    sent (async_for cs w link).1.1 = sent w ++ map chunk_frame texts /\
    BILLING_RECORDS (async_for cs w link).1.1 = BILLING_RECORDS w /\
    texts `prefix_of` omap delta_text cs /\
    ((async_for cs w link).2 = Return tt /\ texts = omap delta_text cs \/
     exists e, (async_for cs w link).2 = Raise e).
Proof.
  induction cs as [|chunk cs IH]; intros w link.
  - exists []. simpl. rewrite app_nil_r. split_and!; try done. by left.
  - cbn [async_for]. rewrite relay_chunk_on_eq, chunk_texts_cons.
    destruct (delta_text chunk) as [text|]; [| apply IH].
    destruct (websocket_send_text_cases (chunk_frame text) w link)
      as [(link' & ->)|(link' & e & ->)].
    + destruct (IH (send_text w (chunk_frame text)) link') as (texts & Hs & Hl & Hp & Hr).
      exists (text :: texts). rewrite Hs, Hl, sent_send_text, <- app_assoc.
      split_and!; try done.
      * by apply prefix_cons.
      * destruct Hr as [[-> ->]|He]; [by left | by right].
    + exists []. cbn [fst snd map]. rewrite app_nil_r.
      split_and!; try done; [apply prefix_nil | right; eauto].
Qed.

Lemma run_turn_on_shape s patient_text env w link :
  exists texts tail recs,
    sent (run_turn_on s patient_text env w link).1.1 =
      sent w ++ map chunk_frame texts ++ tail /\
    BILLING_RECORDS (run_turn_on s patient_text env w link).1.1 =
      BILLING_RECORDS w ++ recs /\
    texts `prefix_of` chunk_texts env /\
    (recs = [] \/
     recs = [billing_record s env] /\ failure (completion env) = None /\
     texts = chunk_texts env) /\
    ((exists t, (run_turn_on s patient_text env w link).2 = Return tt /\ tail = [t] /\
                (t = done_frame /\ recs = [billing_record s env] \/
                 exists e, t = error_frame (websocket_error_text e))) \/
     (exists e, (run_turn_on s patient_text env w link).2 = Raise e /\ tail = [])).
Proof.
  assert (Hexc : forall (w0 : World) (link0 : Link) e texts recs,
             sent w0 = sent w ++ map chunk_frame texts ->
             BILLING_RECORDS w0 = BILLING_RECORDS w ++ recs ->
             exists tail,
               sent (websocket_send_text (error_frame (websocket_error_text e)) w0 link0).1.1 =
                 sent w ++ map chunk_frame texts ++ tail /\
               BILLING_RECORDS (websocket_send_text (error_frame (websocket_error_text e)) w0 link0).1.1 =
                 BILLING_RECORDS w ++ recs /\
               ((exists t, (websocket_send_text (error_frame (websocket_error_text e)) w0 link0).2 = Return tt /\
                           tail = [t] /\
                           (t = done_frame /\ recs = [billing_record s env] \/
                            exists e', t = error_frame (websocket_error_text e'))) \/
                (exists e', (websocket_send_text (error_frame (websocket_error_text e)) w0 link0).2 = Raise e' /\
                            tail = []))).
  { intros w0 link0 e texts recs Hs Hl.
    destruct (websocket_send_text_cases (error_frame (websocket_error_text e)) w0 link0)
      as [(link' & ->)|(link' & e' & ->)]; cbn [fst snd].
    - exists [error_frame (websocket_error_text e)].
      rewrite sent_send_text, Hs, <- app_assoc. split_and!; try done.
      left. eexists. split_and!; try done. right. eauto.
    - exists []. rewrite Hs, app_nil_r. split_and!; try done. right. eauto. }
  unfold chunk_texts, run_turn_on, try_turn_on.
  destruct (completion env) as [e|cs fin] eqn:Hc; cbn [delivered failure].
  - destruct (Hexc w link e [] []) as (tail & Hs & Hl & Hr);
      [by rewrite app_nil_r | by rewrite app_nil_r |].
    exists [], tail, []. split_and!; try done. by left.
  - set (w1 := create w (model_name s) (build_messages patient_text None)).
    destruct (async_for_shape cs w1 link) as (texts & Hs & Hl & Hp & Hr).
    destruct (async_for cs w1 link) as [[w2 link2] r2]. cbn [fst snd] in *.
    subst w1. rewrite sent_create in Hs. change (BILLING_RECORDS (create _ _ _)) with (BILLING_RECORDS w) in Hl.
    destruct Hr as [[-> ->]|[e ->]].
    + destruct fin as [[]|e].
      * set (w3 := append w2 _).
        assert (Hs3 : sent w3 = sent w ++ map chunk_frame (omap delta_text cs))
          by (subst w3; by rewrite sent_append).
        assert (Hl3 : BILLING_RECORDS w3 = BILLING_RECORDS w ++ [billing_record s env])
          by (subst w3; unfold append, log; simpl; by rewrite Hl).
        destruct (websocket_send_text_cases done_frame w3 link2)
          as [(link' & Hd)|(link' & e' & Hd)];
          change (JObj {[ "type" := JStr "done" ]}) with done_frame; rewrite Hd.
        -- exists (omap delta_text cs), [done_frame], [billing_record s env].
           cbn [fst snd]. rewrite sent_send_text, Hs3, <- app_assoc.
           split_and!; try done; [by right |].
           left. eexists. split_and!; try done. by left.
        -- destruct (Hexc w3 link' e' (omap delta_text cs) [billing_record s env] Hs3 Hl3)
             as (tail & Hs' & Hl' & Hr').
           exists (omap delta_text cs), tail, [billing_record s env].
           split_and!; try done. by right.
      * destruct (Hexc w2 link2 e (omap delta_text cs) []) as (tail & Hs' & Hl' & Hr');
          [done | by rewrite app_nil_r |].
        exists (omap delta_text cs), tail, []. split_and!; try done. by left.
    + destruct (Hexc w2 link2 e texts []) as (tail & Hs' & Hl' & Hr');
        [done | by rewrite app_nil_r |].
      exists texts, tail, []. split_and!; try done. by left.
Qed.

Lemma iteration_on_shape s r env w link :
  exists frames new,
    sent (iteration_on s r env w link).1.1 = sent w ++ frames /\
    BILLING_RECORDS (iteration_on s r env w link).1.1 = BILLING_RECORDS w ++ new /\
    (new = [] \/ new = [billing_record s env]) /\
    (length (filter (fun f => is_done f = true) frames) <= length new)%nat /\
    (length (filter (fun f => is_terminal f = true) frames) <=
       if starts_turn r then 1 else 0)%nat.
Proof.
  destruct (starts_turn r) eqn:Ht.
  - destruct r as [| |[]]; try done. simpl in Ht.
    unfold iteration_on. unfold is_user_message in Ht. rewrite Ht.
    destruct (run_turn_on_shape s (default (JStr "") (m !! "text")) env w link)
      as (texts & tail & recs & Hs & Hl & _ & Hrecs & Hr).
    destruct (run_turn_on s _ env w link) as [[w' link'] res]. cbn [fst snd] in *.
    exists (map chunk_frame texts ++ tail), recs.
    rewrite !filter_app, !length_app.
    rewrite (filter_chunk_frames is_done) by apply chunk_frame_not_done.
    rewrite (filter_chunk_frames is_terminal) by apply chunk_frame_not_terminal.
    assert (Hrecs' : recs = [] \/ recs = [billing_record s env])
      by (destruct Hrecs as [?|(? & _)]; auto).
    destruct Hr as [(t & -> & -> & Ht')|(e & -> & ->)]; cbn [fst snd];
      (split; [exact Hs |]); (split; [exact Hl |]); (split; [exact Hrecs' |]).
    + destruct Ht' as [[-> ->]|(e & ->)]; simpl.
      * rewrite filter_cons_True by done. split; [done |]. apply length_filter.
      * rewrite filter_cons_False by (unfold is_done; by rewrite frame_type_error).
        split; [simpl; lia |]. apply length_filter.
    + simpl. lia.
  - rewrite (iteration_on_no_turn s r env w link Ht).
    exists [], []. cbn [fst].
    assert (Hw : (iteration s r env w).1 = w).
    { destruct r as [| |[]]; try done. simpl in Ht.
      by rewrite iteration_other_dict. }
    rewrite Hw, !app_nil_r. split_and!; auto.
Qed.

(** The loop on any link: what it sends and what it writes. *)
Lemma websocket_loop_on_shape s inputs : forall w link,
  exists frames new,
    sent (websocket_loop_on s inputs w link).1.1 = sent w ++ frames /\
    BILLING_RECORDS (websocket_loop_on s inputs w link).1.1 = BILLING_RECORDS w ++ new /\
    (length (filter (fun f => is_done f = true) frames) <= length new)%nat /\
    (length (filter (fun f => is_terminal f = true) frames) <= length (turns inputs))%nat.
Proof.
  induction inputs as [|[r env] inputs IH]; intros w link.
  - exists [], []. simpl. by rewrite !app_nil_r.
  - cbn [websocket_loop_on].
    destruct (iteration_on_shape s r env w link) as (fs & new & Hs & Hl & _ & Hd & Ht).
    assert (Hturns : ((if starts_turn r then 1 else 0) <= length (turns ((r, env) :: inputs)))%nat /\
                     (is_dict r = true ->
                      length (turns ((r, env) :: inputs)) =
                        ((if starts_turn r then 1 else 0) + length (turns inputs))%nat)).
    { destruct r as [| |[]]; simpl; try (split; [lia | done]).
      rewrite length_app. destruct (is_user_message m); simpl; split; lia. }
    destruct (iteration_on s r env w link) as [[w' link'] [|]] eqn:Hi; cbn [fst snd] in *.
    + destruct (IH w' link') as (fs' & new' & Hs' & Hl' & Hd' & Ht').
      exists (fs ++ fs'), (new ++ new').
      rewrite Hs', Hl', Hs, Hl, <- !app_assoc, !filter_app, !length_app.
      split_and!; try done; [lia |].
      assert (Hdict : is_dict r = true).
      { destruct r as [| |[]]; try done. }
      rewrite (proj2 Hturns Hdict). lia.
    + exists fs, new. split_and!; try done. lia.
Qed.


Lemma websocket_loop_on_step s r env rest w link w' link' :
  iteration_on s r env w link = (w', link', Idle) ->
  websocket_loop_on s ((r, env) :: rest) w link = websocket_loop_on s rest w' link'.
Proof. intros H. cbn [websocket_loop_on]. by rewrite H. Qed.

(** ** Shape of a turn's output (C7) *)

(** C7, as the code has it.  A frame accepted as a [user_message] makes
    the handler send chunk frames, for the provider's texts in order up
    to the first send that raises, and after them at most one terminal
    frame, [done] or [error], never both.  The handler is back at
    [receive_text] exactly when that terminal frame went out; when the
    send of the [error] frame raises, the turn has no terminal frame and
    the handler is out of the loop.  When the sends of the turn go
    through, the chunk frames are all there and the terminal frame is
    [done] if the provider did not fail and [error] if it did. *)
Theorem turn_frames_shape s message env w link :
  is_user_message message = true ->
  exists texts tail,
    sent (iteration_on s (Loaded (JObj message)) env w link).1.1 =
      sent w ++ map chunk_frame texts ++ tail /\
    texts `prefix_of` chunk_texts env /\
    Forall (fun f => is_chunk f = true) (map chunk_frame texts) /\
    filter (fun f => is_terminal f = true) (map chunk_frame texts ++ tail) = tail /\
    ((exists t, tail = [t] /\ is_terminal t = true /\
                is_done t = negb (is_error t) /\
                (iteration_on s (Loaded (JObj message)) env w link).2 = Idle) \/
     (tail = [] /\ (iteration_on s (Loaded (JObj message)) env w link).2 = Closed)) /\
    (sends_ok (length (chunk_texts env) + 1) link = false \/
     texts = chunk_texts env /\
     tail = [match failure (completion env) with
             | None => done_frame
             | Some e => error_frame (websocket_error_text e)
             end] /\
     (iteration_on s (Loaded (JObj message)) env w link).2 = Idle).
Proof.
  intros Hm.
  assert (Hterm : forall t,
             t = done_frame \/ (exists e, t = error_frame (websocket_error_text e)) ->
             is_terminal t = true /\ is_done t = negb (is_error t)).
  { intros t [->|(e & ->)]; unfold is_terminal, is_done, is_error.
    - by rewrite frame_type_done.
    - by rewrite frame_type_error. }
  destruct (sends_ok (length (chunk_texts env) + 1) link) eqn:Hok.
  - rewrite (iteration_on_sends_ok s message env w link Hm Hok).
    rewrite (iteration_user_message s message env w Hm). cbn [fst snd].
    rewrite sent_run_turn. fold (chunk_texts env).
    eexists _, _. split; [reflexivity |].
    destruct (Hterm (match failure (completion env) with
                     | None => done_frame
                     | Some e => error_frame (websocket_error_text e)
                     end)) as [Ht1 Ht2].
    { destruct (failure (completion env)); eauto. }
    split_and!; try done.
    + apply chunk_frames_all_chunks.
    + rewrite filter_app, (filter_chunk_frames is_terminal)
        by apply chunk_frame_not_terminal.
      simpl. by rewrite filter_cons_True.
    + left. eauto.
    + by right.
  - unfold iteration_on. unfold is_user_message in Hm. rewrite Hm.
    destruct (run_turn_on_shape s (default (JStr "") (message !! "text")) env w link)
      as (texts & tail & recs & Hs & _ & Hp & _ & Hr).
    destruct (run_turn_on s _ env w link) as [[w' link'] res]. cbn [fst snd] in *.
    exists texts, tail.
    assert (Hf : filter (fun f => is_terminal f = true) (map chunk_frame texts ++ tail) = tail).
    { rewrite filter_app, (filter_chunk_frames is_terminal)
        by apply chunk_frame_not_terminal.
      destruct Hr as [(t & _ & -> & Ht)|(e & _ & ->)]; [| done].
      simpl. rewrite filter_cons_True; [done |].
      apply Hterm. destruct Ht as [[-> _]|?]; auto. }
    destruct Hr as [(t & -> & -> & Ht)|(e & -> & ->)]; cbn [fst snd];
      (split_and!; [exact Hs | exact Hp | apply chunk_frames_all_chunks | exact Hf | | by left]).
    + left. exists t. destruct (Hterm t) as [Ht1 Ht2]; [destruct Ht as [[-> _]|?]; auto |].
      done.
    + by right.
Qed.

Lemma turn_frames_shape_witness :
  is_user_message (user_message "hello") = true /\
  exists texts tail,
    sent (iteration_on (accept "s-1") (Loaded (JObj (user_message "hello")))
            hello_env empty_world (drops_after 1)).1.1 =
      sent empty_world ++ map chunk_frame texts ++ tail /\
    texts `prefix_of` chunk_texts hello_env /\
    filter (fun f => is_terminal f = true) (map chunk_frame texts ++ tail) = tail.
Proof.
  split; [vm_compute; reflexivity |].
  destruct (turn_frames_shape (accept "s-1") (user_message "hello") hello_env
              empty_world (drops_after 1)) as (texts & tail & H1 & H2 & _ & H4 & _).
  - vm_compute; reflexivity.
  - exists texts, tail. split; [exact H1 |]. split; [exact H2 | exact H4].
Defined.

(** C7 fails as stated: when the client goes away after the first chunk,
    the second chunk's send raises, the send of the [error] frame raises
    too, and the turn ends with one chunk frame, no terminal frame and the
    handler out of the loop; when the client goes away after the last
    chunk, the turn is billed and still has no terminal frame. *)
Lemma turn_without_terminal_frame :
  is_user_message (user_message "hello") = true /\
  sent (iteration_on (accept "s-1") (Loaded (JObj (user_message "hello")))
          hello_env empty_world (drops_after 1)).1.1 = [chunk_frame "Hel"] /\
  (iteration_on (accept "s-1") (Loaded (JObj (user_message "hello")))
     hello_env empty_world (drops_after 1)).2 = Closed /\
  sent (iteration_on (accept "s-1") (Loaded (JObj (user_message "hello")))
          hello_env empty_world (drops_after 3)).1.1 =
    [chunk_frame "Hel"; chunk_frame "lo, "; chunk_frame "world"] /\
  length (BILLING_RECORDS
            (iteration_on (accept "s-1") (Loaded (JObj (user_message "hello")))
               hello_env empty_world (drops_after 3)).1.1) = 1%nat.
Proof. repeat split; vm_compute; reflexivity. Qed.

(** ** A completed turn (C2) *)




(** ** A failed turn (C3) *)

(** C3, as the code has it.  When the completion client raises during a
    turn, before any chunk or after some, the ledger is left as it was,
    whatever the link does.  When the sends of the turn go through, the
    frames sent are the chunk frames of what was delivered followed by one
    [error] frame, whose text is the exception text or the fixed
    configuration message that replaces it, and the handler is back at
    [receive_text], so the loop goes on with the next frame on the same
    connection. *)
Theorem failed_turn_not_billed s message env e w link :
  is_user_message message = true ->
  failure (completion env) = Some e ->
  sends_ok (length (chunk_texts env) + 1) link = true ->
  (forall link',
      BILLING_RECORDS (iteration_on s (Loaded (JObj message)) env w link').1.1 =
      BILLING_RECORDS w) /\
  (exists new,
      trace (iteration_on s (Loaded (JObj message)) env w link).1.1 = trace w ++ new /\
      Forall (fun e => is_append e = false) new) /\
  sent (iteration_on s (Loaded (JObj message)) env w link).1.1 =
    sent w ++ map chunk_frame (chunk_texts env) ++
    [error_frame (websocket_error_text e)] /\
  filter (fun f => is_error f = true)
    (map chunk_frame (chunk_texts env) ++
     [error_frame (websocket_error_text e)]) = [error_frame (websocket_error_text e)] /\
  (websocket_error_text e = e \/
   websocket_error_text e =
     "OpenAI API key not configured. Please set OPENAI_API_KEY in Replit Secrets.") /\
  (iteration_on s (Loaded (JObj message)) env w link).2 = Idle /\
  (forall rest,
      websocket_loop_on s ((Loaded (JObj message), env) :: rest) w link =
      websocket_loop_on s rest
        (iteration_on s (Loaded (JObj message)) env w link).1.1
        (iteration_on s (Loaded (JObj message)) env w link).1.2).
Proof.
  intros Hm He Hok.
  pose proof (iteration_on_sends_ok s message env w link Hm Hok) as Hi.
  rewrite (iteration_user_message s message env w Hm) in Hi. cbn [fst] in Hi.
  split.
  { intros link'. unfold iteration_on.
    pose proof Hm as Hm'. unfold is_user_message in Hm'. rewrite Hm'.
    destruct (run_turn_on_shape s (default (JStr "") (message !! "text")) env w link')
      as (texts & tail & recs & _ & Hl & _ & Hrecs & _).
    assert (Hnil : recs = []).
    { destruct Hrecs as [?|(_ & Hnone & _)]; [done | congruence]. }
    rewrite Hnil, app_nil_r in Hl.
    by destruct (run_turn_on s _ env w link') as [[w' l'] [|]]. }
  rewrite Hi. cbn [fst snd].
  split.
  { rewrite (run_turn_failed s _ env e w He). simpl.
    eexists. split; [reflexivity |].
    rewrite !Forall_app. split_and!.
    - by destruct (completion env); repeat constructor.
    - apply Forall_forall. intros x Hx. apply list_elem_of_In, in_map_iff in Hx.
      by destruct Hx as (? & <- & _).
    - by repeat constructor. }
  split; [by rewrite sent_run_turn, He |].
  split.
  { rewrite filter_app, (filter_chunk_frames is_error) by apply chunk_frame_not_error.
    simpl. rewrite filter_cons_True; [done |].
    unfold is_error. by rewrite frame_type_error. }
  split; [unfold websocket_error_text; destruct (mentions_api_key e); auto |].
  split; [done |].
  intros rest. by apply websocket_loop_on_step.
Qed.

Lemma failed_turn_not_billed_witness :
  is_user_message (user_message "hello") = true /\
  failure (completion failing_env) = Some "Connection error." /\
  sends_ok (length (chunk_texts failing_env) + 1) (drops_after 2) = true /\
  sent (iteration_on (accept "s-1") (Loaded (JObj (user_message "hello")))
          failing_env empty_world (drops_after 2)).1.1 =
    [chunk_frame "Hel"; error_frame "Connection error."] /\
  (iteration_on (accept "s-1") (Loaded (JObj (user_message "hello")))
     failing_env empty_world (drops_after 2)).2 = Idle.
Proof.
  split; [vm_compute; reflexivity |].
  split; [reflexivity |].
  split; [vm_compute; reflexivity |].
  destruct (failed_turn_not_billed (accept "s-1") (user_message "hello") failing_env
              "Connection error." empty_world (drops_after 2))
    as (_ & _ & Hs & _ & _ & Hi & _).
  - vm_compute; reflexivity.
  - reflexivity.
  - vm_compute; reflexivity.
  - split; [exact Hs | exact Hi].
Defined.

(** C3 fails as stated: the provider fails after one chunk and the client
    has gone in the meantime.  The send of the [error] frame raises, no
    [error] frame is sent, the handler is out of the loop and the next
    [user_message] gets no answer. *)
Lemma failed_turn_without_error_frame :
  failure (completion failing_env) = Some "Connection error." /\
  websocket_chat_on "s-1"
    [(Loaded (JObj (user_message "hello")), failing_env);
     (Loaded (JObj (user_message "again")), hello_env)] empty_world (drops_after 1)
  = ({| BILLING_RECORDS := [];
        trace := [ Requested "gpt-4o-mini" (build_messages (JStr "hello") None);
                   Sent (chunk_frame "Hel") ] |},
     [Raise "connection closed"], Closed).
Proof. split; [reflexivity | vm_compute; reflexivity]. Qed.

(** ** Whole sessions on a connection that may drop *)

(** The two handlers agree on a link whose sends all go through. *)
Example websocket_chat_on_sample :
  websocket_chat_on "s-1"
    [(Loaded (JObj (user_message "hello")), hello_env);
     (Loaded (JObj ping), hello_env);
     (Loaded (JObj (user_message "again")), failing_env)] empty_world [] =
  ((websocket_chat "s-1"
      [(Loaded (JObj (user_message "hello")), hello_env);
       (Loaded (JObj ping), hello_env);
       (Loaded (JObj (user_message "again")), failing_env)] empty_world).1, [], Idle).
Proof. vm_compute. reflexivity. Qed.

(** X2.  Over a whole connection, whatever the link does, a [done] frame
    is never sent for a turn that is not billed and a turn never gets
    more than one terminal frame: the [done] frames sent are at most as
    many as the records appended, and the terminal frames ([done] or
    [error]) at most as many as the turns the input asks for.  On a link
    whose sends all go through both counts are equal. *)
Theorem done_frames_never_exceed_records s inputs w link :
  (exists frames new,
      sent (websocket_loop_on s inputs w link).1.1 = sent w ++ frames /\
      BILLING_RECORDS (websocket_loop_on s inputs w link).1.1 =
        BILLING_RECORDS w ++ new /\
      (length (filter (fun f => is_done f = true) frames) <= length new)%nat /\
      (length (filter (fun f => is_terminal f = true) frames) <=
         length (turns inputs))%nat) /\
  (exists frames new,
      sent (websocket_loop_on s inputs w []).1.1 = sent w ++ frames /\
      BILLING_RECORDS (websocket_loop_on s inputs w []).1.1 =
        BILLING_RECORDS w ++ new /\
      length (filter (fun f => is_done f = true) frames) = length new /\
      length (filter (fun f => is_terminal f = true) frames) = length (turns inputs)).
Proof.
  split; [apply websocket_loop_on_shape |].
  rewrite websocket_loop_on_open. cbn [fst].
  destruct (websocket_loop_summary s inputs w) as (_ & Hl & Hf & _).
  eexists _, _. split; [exact Hf |]. split; [exact Hl |].
  rewrite done_frames_of_turns, terminal_frames_of_turns, length_map. done.
Qed.

Example record_without_done_frame :
  length (filter (fun f => is_done f = true)
            (sent (websocket_chat_on "s-1"
                     [(Loaded (JObj (user_message "hello")), hello_env)]
                     empty_world (drops_after 3)).1.1)) = 0%nat /\
  length (BILLING_RECORDS
            (websocket_chat_on "s-1"
               [(Loaded (JObj (user_message "hello")), hello_env)]
               empty_world (drops_after 3)).1.1) = 1%nat.
Proof. split; vm_compute; reflexivity. Qed.
